(** * The run/output pipeline of the online compiler

    A shallow embedding of the behavioural core of [src/src/App.tsx]: the
    component state, the bootstrap of the Python runtime ([initPyodide]),
    the execution dispatcher ([handleRunCode]) and the language switch
    ([handleLanguageChange]).

    The two execution engines (the browser's [new Function] and Pyodide's
    [runPython]) are not part of the repository.  They enter the model
    as a [Runtime]: for every source text, the observable behaviour of
    running it.  A small reference interpreter at the end of the
    definitions instantiates the [Runtime] for the scenarios. *)

From Stdlib Require Import ZArith Ascii String DecimalString Lia.
From stdpp Require Import base list strings.

Local Open Scope string_scope.
Set Warnings "-register-all".

(** ** Text

    A JavaScript string is a sequence of code units; a Rocq [ascii] stands
    for a code unit in the range 0..255. *)

Definition nl : string := String "010" EmptyString.
Definition dquote : string := String "034" EmptyString.
Definition backslash : string := String "092" EmptyString.

(** [WhiteSpace] and [LineTerminator] code units below 256, the characters
    that [String.prototype.trim] strips: TAB, LF, VT, FF, CR, SP, NBSP. *)
Definition is_white_space (c : ascii) : bool :=
  match nat_of_ascii c with
  | 9 | 10 | 11 | 12 | 13 | 32 | 160 => true
  | _ => false
  end.

Fixpoint trimStart (s : string) : string :=
  match s with
  | EmptyString => EmptyString
  | String c rest => if is_white_space c then trimStart rest else s
  end.

Fixpoint trimEnd (s : string) : string :=
  match s with
  | EmptyString => EmptyString
  | String c rest =>
      match trimEnd rest with
      | EmptyString => if is_white_space c then EmptyString else String c EmptyString
      | kept => String c kept
      end
  end.

(** [s.trim()] *)
Definition trim (s : string) : string := trimEnd (trimStart s).

(** [items.join(sep)] on an array of strings. *)
Definition join (sep : string) (items : list string) : string :=
  String.concat sep items.

(** ** JavaScript values

    The values that cross the boundary between the page and the executed
    code: what is passed to [console.log], what a run returns, and what it
    throws.  Numbers are the safe integers (of magnitude below 2^53),
    which are exactly representable and printed in plain decimal; objects
    are plain records of data properties with distinct keys, so no value
    is callable; [VError] is an instance of [Error] (or of a subclass:
    [SyntaxError], [TypeError], Pyodide's [PythonError]) with its [name]
    and whatever its [message] property holds. *)

Record SafeInteger : Type := mkSafeInteger {
  safe_value : Z;
  safe_bound : Z.ltb (Z.abs safe_value) (2 ^ 53) = true
}.

Definition safe_integer (z : Z) : option SafeInteger :=
  match Z.ltb (Z.abs z) (2 ^ 53) as b
        return Z.ltb (Z.abs z) (2 ^ 53) = b -> option SafeInteger with
  | true => fun H => Some (mkSafeInteger z H)
  | false => fun _ => None
  end eq_refl.

Inductive Value : Type :=
| VUndefined
| VNull
| VBool (b : bool)
| VNum (n : SafeInteger)
| VStr (s : string)
| VArray (items : list Value)
| VObject (props : list (string * Value))
| VError (name : string) (message : Value).

(** The number with the given safe integer value ([undefined] outside the
    range, which no use below reaches). *)
Definition num (z : Z) : Value :=
  match safe_integer z with
  | Some n => VNum n
  | None => VUndefined
  end.

(** How a piece of code ends: it returns a value, throws a value, or
    never returns. *)
Inductive Completion (A : Type) : Type :=
| Returns (a : A)
| Throws (e : Value)
| Diverges.
Arguments Returns {A} a.
Arguments Throws {A} e.
Arguments Diverges {A}.

Definition is_undefined (v : Value) : bool :=
  match v with VUndefined => true | _ => false end.

(** [typeof v] *)
Definition typeof (v : Value) : string :=
  match v with
  | VUndefined => "undefined"
  | VNull => "object"
  | VBool _ => "boolean"
  | VNum _ => "number"
  | VStr _ => "string"
  | VArray _ | VObject _ | VError _ _ => "object"
  end.

(** [v instanceof Error] *)
Definition instanceof_Error (v : Value) : bool :=
  match v with VError _ _ => true | _ => false end.

Definition has_own (key : string) (props : list (string * Value)) : bool :=
  existsb (fun p => String.eqb (fst p) key) props.

(** [String(v)] for the values that are not objects. *)
Definition primitive_string (v : Value) : string :=
  match v with
  | VUndefined => "undefined"
  | VNull => "null"
  | VBool true => "true"
  | VBool false => "false"
  | VNum n => NilZero.string_of_int (Z.to_int (safe_value n))
  | VStr s => s
  | VArray _ | VObject _ | VError _ _ => ""
  end.

(** The conversion of a value to a string that ["..." + v] and a template
    literal perform.  On an object it goes through the object's
    [toString]; [None] stands for the [TypeError] that the conversion
    throws when there is no callable [toString] to use: a plain object
    whose own [toString] property shadows the inherited method (its value
    is data, never a function), on its own or inside an array or as the
    message of an error. *)
Fixpoint ToString (v : Value) : option string :=
  match v with
  | VUndefined | VNull | VBool _ | VNum _ | VStr _ => Some (primitive_string v)
  | VArray items =>
      join "," <$>
        (fix elements (xs : list Value) : option (list string) :=
           match xs with
           | [] => Some []
           | x :: rest =>
               match (match x with
                      | VUndefined | VNull => Some ""
                      | _ => ToString x
                      end), elements rest with
               | Some text, Some texts => Some (text :: texts)
               | _, _ => None
               end
           end) items
  | VObject props =>
      if has_own "toString" props then None else Some "[object Object]"
  | VError name message =>
      match (match message with
             | VUndefined => Some ""
             | _ => ToString message
             end) with
      | Some msg =>
          Some (if String.eqb name "" then msg
                else if String.eqb msg "" then name
                else name +:+ ": " +:+ msg)
      | None => None
      end
  end.

(** The [TypeError] of a failed conversion (the text of its message is
    the engine's). *)
Definition cannot_convert : Value :=
  VError "TypeError" (VStr "Cannot convert object to primitive value").

(** *** [JSON.stringify(v, null, 2)] *)

Definition hex_digit (n : nat) : string :=
  String (ascii_of_nat (if Nat.ltb n 10 then 48 + n else 87 + n)%nat) EmptyString.

Definition json_escape (c : ascii) : string :=
  match nat_of_ascii c with
  | 8 => backslash +:+ "b"
  | 9 => backslash +:+ "t"
  | 10 => backslash +:+ "n"
  | 12 => backslash +:+ "f"
  | 13 => backslash +:+ "r"
  | 34 => backslash +:+ dquote
  | 92 => backslash +:+ backslash
  | n =>
      if Nat.ltb n 32
      then backslash +:+ "u00"
           +:+ hex_digit (Nat.div n 16) +:+ hex_digit (Nat.modulo n 16)
      else String c EmptyString
  end.

Fixpoint json_escape_all (s : string) : string :=
  match s with
  | EmptyString => EmptyString
  | String c rest => json_escape c +:+ json_escape_all rest
  end.

Definition QuoteJSONString (s : string) : string :=
  dquote +:+ json_escape_all s +:+ dquote.

Definition gap : string := "  ".

(** [None] is JavaScript's [undefined]: such a value is left out of an
    object and written [null] inside an array.  An error has no
    enumerable property of its own. *)
Fixpoint SerializeJSONProperty (indent : string) (v : Value) : option string :=
  match v with
  | VUndefined => None
  | VNull => Some "null"
  | VBool true => Some "true"
  | VBool false => Some "false"
  | VNum n => Some (primitive_string (VNum n))
  | VStr s => Some (QuoteJSONString s)
  | VArray items =>
      let stepback := indent in
      let indent := indent +:+ gap in
      let partial :=
        map (fun x => default "null" (SerializeJSONProperty indent x)) items in
      Some match partial with
           | [] => "[]"
           | _ => "[" +:+ nl +:+ indent
                  +:+ join ("," +:+ nl +:+ indent) partial
                  +:+ nl +:+ stepback +:+ "]"
           end
  | VObject props =>
      let stepback := indent in
      let indent := indent +:+ gap in
      let partial :=
        (fix members (ps : list (string * Value)) : list string :=
           match ps with
           | [] => []
           | (k, x) :: rest =>
               match SerializeJSONProperty indent x with
               | Some str => (QuoteJSONString k +:+ ": " +:+ str) :: members rest
               | None => members rest
               end
           end) props in
      Some match partial with
           | [] => "{}"
           | _ => "{" +:+ nl +:+ indent
                  +:+ join ("," +:+ nl +:+ indent) partial
                  +:+ nl +:+ stepback +:+ "}"
           end
  | VError _ _ => Some "{}"
  end.

Definition JSON_stringify (v : Value) : option string :=
  SerializeJSONProperty "" v.

(** [args.map(arg => typeof arg === "object" ? JSON.stringify(arg, null, 2)
    : String(arg)).join(" ")]: the line that the override of [console.log]
    pushes for one call.  [String] is applied to values that are not
    objects only; [join] writes an [undefined] element as the empty
    string. *)
Definition format_line (args : list Value) : string :=
  join " "
    (map (fun arg =>
            if String.eqb (typeof arg) "object"
            then default "" (JSON_stringify arg)
            else primitive_string arg) args).

(** ** Component state *)

Inductive Language : Type := javascript | python.

(** The opaque handle that [loadPyodide] resolves to. *)
Inductive PyodideHandle : Type := PyodideInstance.

Record AppState : Type := mkAppState {
  code : string;
  language : Language;
  isDarkMode : bool;
  output : string;
  pyodide : option PyodideHandle;
  isLoading : bool
}.

(** [useState] initial values. *)
Definition initial_state : AppState :=
  {| code := "// Start coding here...";
     language := javascript;
     isDarkMode := false;
     output := "";
     pyodide := None;
     isLoading := false |}.

(** A call of one of the state setters. *)
Inductive Update : Type :=
| SetCode (text : string)
| SetLanguage (l : Language)
| SetIsDarkMode (b : bool)
| SetOutput (text : string)
| SetPyodide (h : option PyodideHandle)
| SetIsLoading (b : bool).

Definition apply_update (u : Update) (st : AppState) : AppState :=
  match u with
  | SetCode text =>
      mkAppState text (language st) (isDarkMode st) (output st) (pyodide st) (isLoading st)
  | SetLanguage l =>
      mkAppState (code st) l (isDarkMode st) (output st) (pyodide st) (isLoading st)
  | SetIsDarkMode b =>
      mkAppState (code st) (language st) b (output st) (pyodide st) (isLoading st)
  | SetOutput text =>
      mkAppState (code st) (language st) (isDarkMode st) text (pyodide st) (isLoading st)
  | SetPyodide h =>
      mkAppState (code st) (language st) (isDarkMode st) (output st) h (isLoading st)
  | SetIsLoading b =>
      mkAppState (code st) (language st) (isDarkMode st) (output st) (pyodide st) b
  end.

(** ** The page's global logging sink

    [console.log] is a mutable global.  Its value is either the browser's
    own function or the closure that one run of [handleRunCode] created
    over its [logs] array; [logs] arrays live in [heap], addressed by
    their allocation index, so that a closure that outlives its run still
    writes to the same array. *)

Inductive Sink : Type :=
| NativeLog
| CaptureLog (logs : nat).

Record Console : Type := mkConsole {
  console_log : Sink;
  heap : list (list string);
  devtools : list (list Value)
}.

(** ** The Python virtual machine

    The handler's scripts and the user's program run in the same global
    namespace of one interpreter.  [sys.stdout], the attribute of the
    [sys] module, is either the stream the VM started with
    ([sys.__stdout__]) or an [io.StringIO] buffer with its contents.
    [sys_global] says what the global name [sys] denotes: [None] when it is
    the module, [Some message] when a program has rebound it to something
    on which evaluating [sys.stdout] raises, [message] being the message
    of the [PythonError] that Pyodide then throws. *)

Inductive PyStream : Type :=
| StdStream
| StringIO (content : string).

Record PyVM : Type := mkPyVM {
  sys_global : option string;
  sys_stdout : PyStream;
  terminal : string
}.

(** The programs handed to [pyodide.runPython]: three fixed scripts and the
    user's source text. *)
Inductive PyScript : Type :=
| RedirectStdout    (* import sys; import io; sys.stdout = io.StringIO() *)
| UserCode (src : string)
| GetStdoutValue    (* sys.stdout.getvalue() *)
| RestoreStdout.    (* sys.stdout = sys.__stdout__ *)

(** ** Sessions and turns *)

(** Where the asynchronous [initPyodide] stands. *)
Inductive BootPhase : Type :=
| NotStarted
| AwaitingLoad
| Settled.

Inductive Event : Type :=
| EvUpdate (u : Update)
| EvAssignConsoleLog (f : Sink)
| EvCallFunction (src : string)
| EvRunPython (script : PyScript)
| EvConsoleError (args : list Value).

Record Session : Type := mkSession {
  state : AppState;
  console : Console;
  vm : PyVM;
  boot : BootPhase;
  trace : list Event
}.

Definition initial_session : Session :=
  {| state := initial_state;
     console := mkConsole NativeLog [] [];
     vm := mkPyVM None StdStream "";
     boot := NotStarted;
     trace := [] |}.

Definition with_state (f : AppState -> AppState) (s : Session) : Session :=
  mkSession (f (state s)) (console s) (vm s) (boot s) (trace s).
Definition with_console (f : Console -> Console) (s : Session) : Session :=
  mkSession (state s) (f (console s)) (vm s) (boot s) (trace s).
Definition with_vm (f : PyVM -> PyVM) (s : Session) : Session :=
  mkSession (state s) (console s) (f (vm s)) (boot s) (trace s).
Definition with_boot (b : BootPhase) (s : Session) : Session :=
  mkSession (state s) (console s) (vm s) b (trace s).
Definition record (ev : Event) (s : Session) : Session :=
  mkSession (state s) (console s) (vm s) (boot s) (trace s ++ [ev]).

(** ** Behaviour of executed code

    What running a source text does, as far as the handlers depend on it.
    A JavaScript unit makes a sequence of [console.log] calls (each with
    its arguments) and then completes; a syntax error is a [Throws] with
    no calls.  A Python program writes text to [sys.stdout], may rebind
    the global name [sys] ([py_rebinds_sys], with the meaning of
    [sys_global]), and then completes; [Returns v] carries the value of
    its final expression as Pyodide converts it ([None] becomes
    [undefined]).

    The description is that of one run.  It leaves out what the handlers
    do not intercept (the other methods of [console], Python's [stderr]
    and [sys.__stdout__]) and what a program keeps in the engine from one
    run to the next; code that assigns [console.log] or [sys.stdout]
    itself is outside it. *)
Record JsBehaviour : Type := mkJsBehaviour {
  js_logs : list (list Value);
  js_end : Completion Value
}.

Record PyBehaviour : Type := mkPyBehaviour {
  py_printed : string;
  py_rebinds_sys : option string;
  py_end : Completion Value
}.

Class Runtime : Type := mkRuntime {
  js_run : string -> JsBehaviour;
  py_run : string -> PyBehaviour
}.

(** ** A monad for handlers: session state and exceptions *)

Definition M (A : Type) : Type := Session -> Completion A * Session.

Definition ret {A} (a : A) : M A := fun s => (Returns a, s).

Definition bind {A B} (m : M A) (k : A -> M B) : M B :=
  fun s =>
    match m s with
    | (Returns a, s') => k a s'
    | (Throws e, s') => (Throws e, s')
    | (Diverges, s') => (Diverges, s')
    end.

Definition throw {A} (e : Value) : M A := fun s => (Throws e, s).

(** [try { body } catch (error) { handler error }] *)
Definition try_catch {A} (body : M A) (handler : Value -> M A) : M A :=
  fun s =>
    match body s with
    | (Throws e, s') => handler e s'
    | done => done
    end.

(** [try { body } finally { cleanup }] *)
Definition try_finally {A} (body : M A) (cleanup : M unit) : M A :=
  fun s =>
    match body s with
    | (Diverges, s') => (Diverges, s')
    | (c, s') =>
        match cleanup s' with
        | (Returns _, s'') => (c, s'')
        | (Throws e, s'') => (Throws e, s'')
        | (Diverges, s'') => (Diverges, s'')
        end
    end.

Definition lift {A} (c : Completion A) : M A := fun s => (c, s).

Declare Scope handler_scope.
Delimit Scope handler_scope with handler.
Notation "x <- m ;; k" := (bind m (fun x => k))
  (at level 100, m at next level, right associativity) : handler_scope.
Notation "m ;; k" := (bind m (fun _ => k))
  (at level 100, right associativity) : handler_scope.
Local Open Scope handler_scope.

Definition modify (f : Session -> Session) : M unit :=
  fun s => (Returns tt, f s).

Definition set_state (u : Update) : M unit :=
  modify (fun s => record (EvUpdate u) (with_state (apply_update u) s)).

Definition setCode (text : string) : M unit := set_state (SetCode text).
Definition setLanguage (l : Language) : M unit := set_state (SetLanguage l).
Definition setIsDarkMode (b : bool) : M unit := set_state (SetIsDarkMode b).
Definition setOutput (text : string) : M unit := set_state (SetOutput text).
Definition setPyodide (h : PyodideHandle) : M unit := set_state (SetPyodide (Some h)).
Definition setIsLoading (b : bool) : M unit := set_state (SetIsLoading b).

(** ** The logging sink in action *)

(** [logs.push(line)] on the array at address [a]. *)
Definition push_line (a : nat) (line : string) (c : Console) : Console :=
  mkConsole (console_log c) (alter (fun logs => (logs ++ [line])%list) a (heap c)) (devtools c).

(** One call [console.log(...args)], dispatched on the current value of
    the global. *)
Definition call_console_log (args : list Value) (c : Console) : Console :=
  match console_log c with
  | NativeLog => mkConsole (console_log c) (heap c) (devtools c ++ [args])
  | CaptureLog a => push_line a (format_line args) c
  end.

(** [const logs: string[] = []]: a fresh array, at the next address. *)
Definition alloc_logs : M nat :=
  fun s =>
    let a := length (heap (console s)) in
    (Returns a,
     with_console (fun c => mkConsole (console_log c) (heap c ++ [[]]) (devtools c)) s).

Definition read_console_log : M Sink :=
  fun s => (Returns (console_log (console s)), s).

(** [console.log = f] *)
Definition assign_console_log (f : Sink) : M unit :=
  modify (fun s =>
    record (EvAssignConsoleLog f)
      (with_console (fun c => mkConsole f (heap c) (devtools c)) s)).

(** The contents of a [logs] array. *)
Definition read_logs (a : nat) : M (list string) :=
  fun s => (Returns (default [] (heap (console s) !! a)), s).

(** [console.error(...args)] *)
Definition console_error (args : list Value) : M unit :=
  modify (fun s =>
    record (EvConsoleError args)
      (with_console (fun c => mkConsole (console_log c) (heap c) (devtools c ++ [args])) s)).

(** [error.message]: reading a property of [undefined] or [null] throws a
    [TypeError] (the text of its message is the engine's); values without
    the property give [undefined]. *)
Definition message_of (error : Value) : Completion Value :=
  match error with
  | VUndefined | VNull =>
      Throws (VError "TypeError"
                (VStr ("Cannot read properties of " +:+ primitive_string error
                       +:+ " (reading 'message')")))
  | VError _ message => Returns message
  | VObject props =>
      Returns (default VUndefined
                 (snd <$> find (fun p => String.eqb (fst p) "message") props))
  | _ => Returns VUndefined
  end.

Definition get_message (error : Value) : M Value := lift (message_of error).

(** The conversion of [v] inside a string concatenation or a template
    literal, which throws where [ToString] fails. *)
Definition to_string (v : Value) : M string :=
  match ToString v with
  | Some text => ret text
  | None => throw cannot_convert
  end.

Section Handlers.
Context {R : Runtime}.

(** [new Function(src)()]: the unit's logging calls reach whatever
    [console.log] currently is. *)
Definition call_new_Function (src : string) : M Value :=
  fun s =>
    let b := js_run src in
    (js_end b,
     with_console (fun c => foldl (fun c args => call_console_log args c) c (js_logs b))
       (record (EvCallFunction src) s)).

Definition py_write (text : string) (v : PyVM) : PyVM :=
  match sys_stdout v with
  | StdStream => mkPyVM (sys_global v) StdStream (terminal v +:+ text)
  | StringIO content =>
      mkPyVM (sys_global v) (StringIO (content +:+ text)) (terminal v)
  end.

Definition py_rebind (rebinds : option string) (v : PyVM) : PyVM :=
  match rebinds with
  | Some message => mkPyVM (Some message) (sys_stdout v) (terminal v)
  | None => v
  end.

(** [pyodide.runPython(script)].  The redirection starts with
    [import sys], which binds the global name to the module again; the
    two scripts that follow the program evaluate [sys.stdout] and throw
    when the program has rebound [sys]. *)
Definition runPython (h : PyodideHandle) (script : PyScript) : M Value :=
  fun s =>
    let s := record (EvRunPython script) s in
    match script with
    | RedirectStdout =>
        (Returns VUndefined,
         with_vm (fun v => mkPyVM None (StringIO "") (terminal v)) s)
    | UserCode src =>
        let b := py_run src in
        (py_end b,
         with_vm (fun v => py_rebind (py_rebinds_sys b) (py_write (py_printed b) v)) s)
    | GetStdoutValue =>
        match sys_global (vm s), sys_stdout (vm s) with
        | Some message, _ => (Throws (VError "PythonError" (VStr message)), s)
        | None, StringIO content => (Returns (VStr content), s)
        | None, StdStream =>
            (Throws (VError "PythonError"
                       (VStr "AttributeError: '_io.TextIOWrapper' object has no attribute 'getvalue'")),
             s)
        end
    | RestoreStdout =>
        match sys_global (vm s) with
        | Some message => (Throws (VError "PythonError" (VStr message)), s)
        | None =>
            (Returns VUndefined,
             with_vm (fun v => mkPyVM None StdStream (terminal v)) s)
        end
    end.

(** *** [handleRunCode]

    The handler reads [language], [code] and [pyodide] from the render it
    was created in.  It is [async] but never awaits, so it runs to its
    end in one turn.  The conversions of [result], [stdout] and
    [error.message] to strings are steps of their own: those of the two
    branches run inside the [try] blocks, those of the handlers inside
    the [catch] blocks, where nothing catches what they throw. *)
Definition handleRunCode : M unit :=
  fun s0 =>
    let st := state s0 in
    (setOutput "" ;;
     try_catch
       (match language st with
        | javascript =>
            originalConsoleLog <- read_console_log ;;
            logs <- alloc_logs ;;
            assign_console_log (CaptureLog logs) ;;
            result <- call_new_Function (code st) ;;
            assign_console_log originalConsoleLog ;;
            lines <- read_logs logs ;;
            shown_result <-
              (if is_undefined result then ret ""
               else text <- to_string result ;; ret (nl +:+ "=> " +:+ text)) ;;
            setOutput (join nl lines +:+ shown_result)
        | python =>
            match pyodide st with
            | None =>
                setOutput "Python runtime is not ready yet. Please wait..."
            | Some py =>
                try_catch
                  (runPython py RedirectStdout ;;
                   result <- runPython py (UserCode (code st)) ;;
                   stdout <- runPython py GetStdoutValue ;;
                   runPython py RestoreStdout ;;
                   shown_result <-
                     (if is_undefined result then ret ""
                      else text <- to_string result ;;
                           ret (nl +:+ "=> " +:+ text)) ;;
                   printed <- to_string stdout ;;
                   let output := printed +:+ shown_result in
                   setOutput (trim output))
                  (fun error =>
                     message <- get_message error ;;
                     text <- to_string message ;;
                     setOutput ("Error: " +:+ text))
            end
        end)
       (fun error =>
          if instanceof_Error error
          then message <- get_message error ;;
               text <- to_string message ;;
               setOutput ("Error: " +:+ text)
          else setOutput "An unknown error occurred")) s0.

(** *** [handleLanguageChange] *)
Definition handleLanguageChange (newLanguage : Language) : M unit :=
  setLanguage newLanguage ;;
  setCode (match newLanguage with
           | python => "# Start coding here..."
           | javascript => "// Start coding here..."
           end) ;;
  setOutput "".

(** *** [initPyodide]

    The function runs in two turns: up to the [await], and from the
    settlement of [loadPyodide] to the end. *)
Definition initPyodide_start : M unit :=
  setIsLoading true.

Definition initPyodide_resume (loaded : Completion PyodideHandle) : M unit :=
  try_finally
    (try_catch
       (pyodideInstance <- lift loaded ;;
        setPyodide pyodideInstance)
       (fun error =>
          console_error [VStr "Failed to load Pyodide:"; error]))
    (setIsLoading false).
End Handlers.

(** ** A reference interpreter for the scenarios

    The engines are instantiated on a small fragment of each language:
    sequences of simple statements over literals, with [console.log] /
    [print], [return], [throw] / [raise Exception(...)], line comments,
    and the assignment [sys = None] of Python.  Text outside the fragment
    is rejected as a syntax error, which is not what the engines do with
    it: the interpreter stands for them on the fragment only. *)

Module Reference.

Inductive Dialect : Type := Js | Py.

Inductive Token : Type :=
| TId (name : string)
| TNum (digits : string)
| TStr (s : string)
| TLParen | TRParen | TLBrace | TRBrace | TColon | TEq
| TSemi | TComma | TDot | TNewline | TIndent
| TBad.

Inductive LexState : Type :=
| LLineStart
| LIdle
| LIdent (acc : string)
| LNumber (acc : string)
| LString (acc : string)
| LSlash
| LComment.

Definition is_digit (c : ascii) : bool :=
  let n := nat_of_ascii c in Nat.leb 48 n && Nat.leb n 57.

Definition is_letter (c : ascii) : bool :=
  let n := nat_of_ascii c in
  (Nat.leb 65 n && Nat.leb n 90) || (Nat.leb 97 n && Nat.leb n 122) || Nat.eqb n 95.

Definition snoc (s : string) (c : ascii) : string := s +:+ String c EmptyString.

(** A character met outside any token; [at_start] says whether only white
    space precedes it on its line. *)
Definition lex_idle (d : Dialect) (at_start : bool) (c : ascii)
  : list Token * LexState :=
  if is_letter c then ([], LIdent (String c EmptyString))
  else if is_digit c then ([], LNumber (String c EmptyString))
  else match nat_of_ascii c with
       | 34 => ([], LString EmptyString)
       | 9 | 32 => (if at_start then [TIndent] else [], LIdle)
       | 13 => ([], if at_start then LLineStart else LIdle)
       | 10 => ([TNewline], LLineStart)
       | 40 => ([TLParen], LIdle)
       | 41 => ([TRParen], LIdle)
       | 123 => ([TLBrace], LIdle)
       | 125 => ([TRBrace], LIdle)
       | 58 => ([TColon], LIdle)
       | 61 => ([TEq], LIdle)
       | 44 => ([TComma], LIdle)
       | 46 => ([TDot], LIdle)
       | 59 => ([TSemi], LIdle)
       | 47 => match d with Js => ([], LSlash) | Py => ([TBad], LIdle) end
       | 35 => match d with Py => ([], LComment) | Js => ([TBad], LIdle) end
       | _ => ([TBad], LIdle)
       end.

Definition lex_step (d : Dialect) (st : LexState) (c : ascii)
  : list Token * LexState :=
  match st with
  | LLineStart => lex_idle d true c
  | LIdle => lex_idle d false c
  | LIdent acc =>
      if is_letter c || is_digit c then ([], LIdent (snoc acc c))
      else let '(out, st') := lex_idle d false c in (TId acc :: out, st')
  | LNumber acc =>
      if is_digit c then ([], LNumber (snoc acc c))
      else if is_letter c then ([TBad], LIdle)
      else let '(out, st') := lex_idle d false c in (TNum acc :: out, st')
  | LString acc =>
      match nat_of_ascii c with
      | 34 => ([TStr acc], LIdle)
      | 92 => ([TBad], LString acc)
      | 10 => ([TBad; TNewline], LLineStart)
      | _ => ([], LString (snoc acc c))
      end
  | LSlash =>
      if Nat.eqb (nat_of_ascii c) 47 then ([], LComment)
      else let '(out, st') := lex_idle d false c in (TBad :: out, st')
  | LComment =>
      if Nat.eqb (nat_of_ascii c) 10 then ([TNewline], LLineStart)
      else ([], LComment)
  end.

Definition lex_end (st : LexState) : list Token :=
  match st with
  | LLineStart | LIdle | LComment => []
  | LIdent acc => [TId acc]
  | LNumber acc => [TNum acc]
  | LString _ | LSlash => [TBad]
  end.

Fixpoint lex_from (d : Dialect) (st : LexState) (s : string) : list Token :=
  match s with
  | EmptyString => lex_end st
  | String c rest =>
      let '(out, st') := lex_step d st c in (out ++ lex_from d st' rest)%list
  end.

Definition lex (d : Dialect) (s : string) : list Token := lex_from d LLineStart s.

(** Cut a token list at every separator. *)
Fixpoint split_at (sep : Token -> bool) (ts : list Token) : list (list Token) :=
  match ts with
  | [] => [[]]
  | t :: rest =>
      match split_at sep rest with
      | chunk :: chunks =>
          if sep t then [] :: chunk :: chunks else (t :: chunk) :: chunks
      | [] => [[t]]
      end
  end.

Definition is_semi (t : Token) : bool := match t with TSemi => true | _ => false end.
Definition is_comma (t : Token) : bool := match t with TComma => true | _ => false end.
Definition is_newline (t : Token) : bool := match t with TNewline => true | _ => false end.
Definition is_indent (t : Token) : bool := match t with TIndent => true | _ => false end.
Definition is_empty (chunk : list Token) : bool := match chunk with [] => true | _ => false end.

(** The value of a run of decimal digits, read in the given base. *)
Definition digits_value (base : Z) (digits : string) : Z :=
  fold_left (fun acc c => (base * acc + Z.of_nat (nat_of_ascii c - 48))%Z)
    (list_ascii_of_string digits) 0%Z.

Definition all_digits_below (bound : nat) (digits : string) : bool :=
  forallb (fun c => Nat.ltb (nat_of_ascii c - 48) bound) (list_ascii_of_string digits).

Definition leading_zero (digits : string) : bool :=
  match digits with
  | String c (String _ _) => Nat.eqb (nat_of_ascii c) 48
  | _ => false
  end.

(** The tokens between [(] and the closing [)] of a call. *)
Definition call_args (after_callee : list Token) : option (list Token) :=
  match after_callee with
  | TLParen :: rest =>
      match rev rest with
      | TRParen :: inner => Some (rev inner)
      | _ => None
      end
  | _ => None
  end.

Definition args_of (atom : list Token -> option Value) (inner : list Token)
  : option (list Value) :=
  match inner with
  | [] => Some []
  | _ => mapM atom (split_at is_comma inner)
  end.

(** *** JavaScript: the body of a function *)

Inductive JsStmt : Type :=
| JsEmpty
| JsExpr (v : Value)
| JsLog (args : list Value)
| JsReturn (v : Value)
| JsThrow (v : Value).

(** A number literal of a function body, which is not strict code: a
    literal with a leading zero is octal when all its digits are. *)
Definition js_number (digits : string) : option Value :=
  VNum <$> safe_integer
    (if leading_zero digits && all_digits_below 8 digits
     then digits_value 8 digits
     else digits_value 10 digits).

Definition js_literal (t : Token) : option Value :=
  match t with
  | TNum digits => js_number digits
  | TStr s => Some (VStr s)
  | TId x =>
      if String.eqb x "undefined" then Some VUndefined
      else if String.eqb x "null" then Some VNull
      else if String.eqb x "true" then Some (VBool true)
      else if String.eqb x "false" then Some (VBool false)
      else None
  | _ => None
  end.

(** Literals, [new Error("...")], and object literals with one property,
    nested at most once. *)
Definition js_atom (chunk : list Token) : option Value :=
  match chunk with
  | [t] => js_literal t
  | [TId n; TId c; TLParen; TStr message; TRParen] =>
      if String.eqb n "new" && String.eqb c "Error"
      then Some (VError "Error" (VStr message))
      else None
  | [TLBrace; TRBrace] => Some (VObject [])
  | [TLBrace; TId k; TColon; t; TRBrace] =>
      (fun v => VObject [(k, v)]) <$> js_literal t
  | [TLBrace; TId k; TColon; TLBrace; TId k'; TColon; t; TRBrace; TRBrace] =>
      (fun v => VObject [(k, VObject [(k', v)])]) <$> js_literal t
  | _ => None
  end.

(** What follows [throw]: an atom, or
    [Object.assign(new Error("..."), {message: atom})], the error with
    its [message] property overwritten. *)
Definition js_thrown (chunk : list Token) : option Value :=
  match chunk with
  | TId o :: TDot :: TId a :: TLParen :: TId n :: TId c :: TLParen :: TStr _
      :: TRParen :: TComma :: TLBrace :: TId m :: TColon :: rest =>
      if String.eqb o "Object" && String.eqb a "assign" && String.eqb n "new"
         && String.eqb c "Error" && String.eqb m "message"
      then match rev rest with
           | TRParen :: TRBrace :: inner => VError "Error" <$> js_atom (rev inner)
           | _ => None
           end
      else None
  | _ => js_atom chunk
  end.

Definition js_stmt (chunk : list Token) : option JsStmt :=
  match chunk with
  | [] => Some JsEmpty
  | [TId k] =>
      if String.eqb k "return" then Some (JsReturn VUndefined)
      else JsExpr <$> js_atom chunk
  | TId c :: TDot :: TId l :: rest =>
      if String.eqb c "console" && String.eqb l "log"
      then JsLog <$> (call_args rest ≫= args_of js_atom)
      else None
  | TId k :: rest =>
      if String.eqb k "return" then JsReturn <$> js_atom rest
      else if String.eqb k "throw" then JsThrow <$> js_thrown rest
      else JsExpr <$> js_atom chunk
  | _ => JsExpr <$> js_atom chunk
  end.

(** Line breaks.  A line break ends a statement unless the token before
    it or the token after it shows that the expression goes on; after
    [return] and [throw] it always ends the statement. *)
Definition goes_on_after (t : Token) : bool :=
  match t with
  | TDot | TLParen | TComma | TLBrace | TColon => true
  | TId x => String.eqb x "new"
  | _ => false
  end.

Definition goes_on_before (t : Token) : bool :=
  match t with
  | TDot | TLParen | TRParen | TComma | TRBrace | TColon => true
  | _ => false
  end.

Definition next_token (ts : list Token) : option Token :=
  head (filter (fun t => is_newline t = false) ts).

Fixpoint js_line_breaks (prev : option Token) (ts : list Token) : list Token :=
  match ts with
  | [] => []
  | TNewline :: rest =>
      match prev, next_token rest with
      | Some p, Some n =>
          if goes_on_after p || goes_on_before n
          then js_line_breaks prev rest
          else TSemi :: js_line_breaks None rest
      | _, _ => js_line_breaks prev rest
      end
  | t :: rest => t :: js_line_breaks (if is_semi t then None else Some t) rest
  end.

(** Calling the function: statements run in order; the value of an
    expression statement is dropped; only [return] gives the call a
    value, and a body that runs to its end returns [undefined]. *)
Fixpoint js_exec (body : list JsStmt) (logs : list (list Value)) : JsBehaviour :=
  match body with
  | [] => mkJsBehaviour logs (Returns VUndefined)
  | JsEmpty :: rest => js_exec rest logs
  | JsExpr _ :: rest => js_exec rest logs
  | JsLog args :: rest => js_exec rest (logs ++ [args])
  | JsReturn v :: _ => mkJsBehaviour logs (Returns v)
  | JsThrow v :: _ => mkJsBehaviour logs (Throws v)
  end.

Definition run_js (src : string) : JsBehaviour :=
  let tokens :=
    js_line_breaks None (filter (fun t => is_indent t = false) (lex Js src)) in
  match mapM js_stmt (split_at is_semi tokens) with
  | Some body => js_exec body []
  | None =>
      mkJsBehaviour [] (Throws (VError "SyntaxError" (VStr "Unexpected token")))
  end.

(** *** Python: a module of simple statements, one per line *)

Inductive PyStmt : Type :=
| PyExpr (v : Value)
| PyPrint (args : list Value)
| PyRaise (v : Value)
| PyRebindSys (message : string).

(** The message of the [PythonError] for an exception whose last
    traceback line is [last].  Pyodide puts the frames of its own runner,
    which depend on its version, before the frame of the program; they
    are left out here, and the frame is given for line 1. *)
Definition traceback (last : string) : string :=
  "Traceback (most recent call last):" +:+ nl
  +:+ "  File " +:+ dquote +:+ "<exec>" +:+ dquote +:+ ", line 1, in <module>" +:+ nl
  +:+ last +:+ nl.

(** An integer literal: leading zeros are an error unless the number is
    zero.  Python's [None] is carried as [VUndefined], which is also what
    Pyodide turns it into on the way out. *)
Definition py_atom (chunk : list Token) : option Value :=
  match chunk with
  | [TNum digits] =>
      if leading_zero digits && negb (Z.eqb (digits_value 10 digits) 0)
      then None
      else VNum <$> safe_integer (digits_value 10 digits)
  | [TStr s] => Some (VStr s)
  | [TId x] =>
      if String.eqb x "None" then Some VUndefined
      else if String.eqb x "True" then Some (VBool true)
      else if String.eqb x "False" then Some (VBool false)
      else None
  | _ => None
  end.

(** [str(v)] *)
Definition py_str (v : Value) : string :=
  match v with
  | VUndefined => "None"
  | VBool true => "True"
  | VBool false => "False"
  | _ => primitive_string v
  end.

Definition py_stmt (chunk : list Token) : option PyStmt :=
  match chunk with
  | [TId k; TId c; TLParen; TStr message; TRParen] =>
      if String.eqb k "raise" && String.eqb c "Exception"
      then Some (PyRaise (VError "PythonError"
                            (VStr (traceback ("Exception: " +:+ message)))))
      else None
  | [TId x; TEq; TId v] =>
      if String.eqb x "sys" && String.eqb v "None"
      then Some (PyRebindSys
                   (traceback "AttributeError: 'NoneType' object has no attribute 'stdout'"))
      else None
  | TId f :: (TLParen :: _) as rest =>
      if String.eqb f "print"
      then PyPrint <$> (call_args rest ≫= args_of py_atom)
      else None
  | _ => PyExpr <$> py_atom chunk
  end.

(** [runPython] returns the value of the program's last statement when
    that is an expression; a [print(...)] call is an expression whose
    value is [None]. *)
Fixpoint py_exec (body : list PyStmt) (printed : string) (rebinds : option string)
    (last : Value) : PyBehaviour :=
  match body with
  | [] => mkPyBehaviour printed rebinds (Returns last)
  | PyExpr v :: rest => py_exec rest printed rebinds v
  | PyPrint args :: rest =>
      py_exec rest (printed +:+ join " " (map py_str args) +:+ nl) rebinds VUndefined
  | PyRaise v :: _ => mkPyBehaviour printed rebinds (Throws v)
  | PyRebindSys message :: rest => py_exec rest printed (Some message) VUndefined
  end.

(** A line that holds nothing but white space or a comment is skipped; a
    statement that does not start in the first column is an error. *)
Definition py_lines (tokens : list Token) : list (list Token) :=
  filter (fun l => negb (is_empty (filter (fun t => is_indent t = false) l)) = true)
    (split_at is_newline tokens).

Definition run_py (src : string) : PyBehaviour :=
  match mapM py_stmt (py_lines (lex Py src)) with
  | Some body => py_exec body "" None VUndefined
  | None =>
      mkPyBehaviour "" None
        (Throws (VError "PythonError" (VStr (traceback "SyntaxError: invalid syntax"))))
  end.

#[export] Instance runtime : Runtime := mkRuntime run_js run_py.

(** The literal ["text"] as source text. *)
Definition quoted (text : string) : string := dquote +:+ text +:+ dquote.
End Reference.

(** ** The life of a session

    One turn of the page's event loop runs one handler, or one stretch of
    [initPyodide] between suspension points, to its end.  [turn] gives the
    session at the end of a turn and [reachable] the sessions between
    turns.  The setter calls of a turn are made one after the other, in
    the order kept in [trace]; whether a render happens between two of
    them is React's choice and not the source's, so the states after each
    single call are kept too: [states_through] lists them and [seen]
    collects them over all turns. *)

Inductive Turn : Type :=
| Mount                                        (* the effect starts initPyodide *)
| LoadSettled (loaded : Completion PyodideHandle) (* loadPyodide resolves or rejects *)
| ClickRun
| ClickLanguage (newLanguage : Language)
| Edit (text : string)
| ToggleTheme.

Definition committed {A} (r : Completion A * Session) : option Session :=
  match r with
  | (Returns _, s) => Some s
  | _ => None
  end.

(** A handler that ends by throwing has made its changes all the same;
    only one that never returns leaves no session behind. *)
Definition ended {A} (r : Completion A * Session) : option Session :=
  match r with
  | (Returns _, s) | (Throws _, s) => Some s
  | (Diverges, _) => None
  end.

Section Turns.
Context {R : Runtime}.

(** [None]: the turn cannot happen in this session, or it never ends. *)
Definition turn (t : Turn) (s : Session) : option Session :=
  match t with
  | Mount =>
      match boot s with
      | NotStarted => with_boot AwaitingLoad <$> committed (initPyodide_start s)
      | _ => None
      end
  | LoadSettled Diverges => None
  | LoadSettled loaded =>
      match boot s with
      | AwaitingLoad => with_boot Settled <$> committed (initPyodide_resume loaded s)
      | _ => None
      end
  | ClickRun => ended (handleRunCode s)
  | ClickLanguage newLanguage => committed (handleLanguageChange newLanguage s)
  | Edit text => committed (setCode text s)
  | ToggleTheme => committed (setIsDarkMode (negb (isDarkMode (state s))) s)
  end.

Fixpoint turns (ts : list Turn) (s : Session) : option Session :=
  match ts with
  | [] => Some s
  | t :: rest =>
      match turn t s with
      | Some s' => turns rest s'
      | None => None
      end
  end.

Inductive reachable : Session -> Prop :=
| reachable_initial : reachable initial_session
| reachable_turn s t s' : reachable s -> turn t s = Some s' -> reachable s'.

(** The session that [handleRunCode] leaves behind, and how it ends. *)
Definition after_run (s : Session) : Session := snd (handleRunCode s).
Definition run_outcome (s : Session) : Completion unit := fst (handleRunCode s).


(** The session in which the handler of a turn stops, also when it stops
    for good inside the executed code; [None] when the turn cannot happen
    in this session. *)
Definition attempt (t : Turn) (s : Session) : option Session :=
  match t with
  | Mount =>
      match boot s with
      | NotStarted => Some (snd (initPyodide_start s))
      | _ => None
      end
  | LoadSettled Diverges => None
  | LoadSettled loaded =>
      match boot s with
      | AwaitingLoad => Some (snd (initPyodide_resume loaded s))
      | _ => None
      end
  | ClickRun => Some (snd (handleRunCode s))
  | ClickLanguage newLanguage => Some (snd (handleLanguageChange newLanguage s))
  | Edit text => Some (snd (setCode text s))
  | ToggleTheme => Some (snd (setIsDarkMode (negb (isDarkMode (state s))) s))
  end.
End Turns.

(** The events that a handler adds to the trace of [s]. *)
Definition new_events (s s' : Session) : list Event :=
  drop (length (trace s)) (trace s').

(** The component state after the setter calls among [evs], made in order
    from [st]; and the states after each one of them. *)
Definition replay (evs : list Event) (st : AppState) : AppState :=
  foldl (fun st ev => match ev with EvUpdate u => apply_update u st | _ => st end)
    st evs.

Fixpoint states_through (evs : list Event) (st : AppState) : list AppState :=
  match evs with
  | [] => []
  | EvUpdate u :: rest => apply_update u st :: states_through rest (apply_update u st)
  | _ :: rest => states_through rest st
  end.

(** The component states that exist at some moment of a session: the
    initial one, and the state after each setter call of each turn taken
    from a reachable session. *)
Definition seen {R : Runtime} (st : AppState) : Prop :=
  st = initial_state
  \/ exists s t s',
       reachable s /\ attempt t s = Some s'
       /\ st ∈ states_through (new_events s s') (state s).

(** ** Sessions for the scenarios *)

(** A settled session showing [src] in language [l], with some output left
    over from an earlier run. *)
Definition session_with (l : Language) (src : string) (py : option PyodideHandle)
  : Session :=
  {| state := mkAppState src l false "previous output" py false;
     console := mkConsole NativeLog [] [];
     vm := mkPyVM None StdStream "";
     boot := Settled;
     trace := [] |}.

(** What the output panel holds after the given turns from page load. *)
Definition shown {R : Runtime} (ts : list Turn) : option string :=
  (fun s => output (state s)) <$> turns ts initial_session.

(** [console.log("hi"); 42] and [console.log("hi"); return 42] *)
Definition scenario1_source : string :=
  "console.log(" +:+ Reference.quoted "hi" +:+ "); 42".
Definition scenario1_with_return : string :=
  "console.log(" +:+ Reference.quoted "hi" +:+ "); return 42".

(** [throw new Error("bad")] *)
Definition scenario2_source : string :=
  "throw new Error(" +:+ Reference.quoted "bad" +:+ ")".

(** [print("x")] *)
Definition scenario3_source : string :=
  "print(" +:+ Reference.quoted "x" +:+ ")".

(** [raise Exception("boom")] *)
Definition raising_source : string :=
  "raise Exception(" +:+ Reference.quoted "boom" +:+ ")".


(** [throw Object.assign(new Error("x"), {message: {toString: null}})]:
    the unit throws an error whose message cannot be converted to a
    string. *)
Definition unconvertible_message_source : string :=
  "throw Object.assign(new Error(" +:+ Reference.quoted "x"
  +:+ "), {message: {toString: null}})".


(** The invariant behind the exclusion of "loading" and "ready": what
    each phase of [initPyodide] guarantees between turns. *)
Definition boot_invariant (s : Session) : Prop :=
  match boot s with
  | NotStarted => isLoading (state s) = false /\ pyodide (state s) = None
  | AwaitingLoad => pyodide (state s) = None
  | Settled => isLoading (state s) = false
  end.

(** ** What the page shows

    The expressions of the rendered markup that depend on the session
    state: the [disabled] attribute, the style and the label of the Run
    button, and the contents of the output panel. *)

(** [language === "python"] and the truthiness of [pyodide]. *)
Definition is_python (st : AppState) : bool :=
  match language st with python => true | javascript => false end.

Definition has_pyodide (st : AppState) : bool :=
  match pyodide st with Some _ => true | None => false end.

(** [disabled={language === "python" && (isLoading || !pyodide)}] *)
Definition run_disabled (st : AppState) : bool :=
  is_python st && (isLoading st || negb (has_pyodide st)).

(** The colour classes of the Run button:
    [isLoading || (language === "python" && !pyodide) ? grey : green]. *)
Definition run_button_class (st : AppState) : string :=
  if isLoading st || (is_python st && negb (has_pyodide st))
  then "bg-gray-400 cursor-not-allowed"
  else "bg-green-500 hover:bg-green-600".

(** [isLoading ? "Loading Python..." : "Run"] *)
Definition run_button_label (st : AppState) : string :=
  if isLoading st then "Loading Python..." else "Run".

(** [output || "Run your code to see the output here..."]: the empty
    string is falsy. *)
Definition output_panel (st : AppState) : string :=
  if String.eqb (output st) "" then "Run your code to see the output here..."
  else output st.

(** A click on the Run button: a disabled button fires no handler. *)
Definition click_run {R : Runtime} (s : Session) : option Session :=
  if run_disabled (state s) then None else committed (handleRunCode s).


(** What each phase of [initPyodide] means for the loading flag and the
    handle. *)
Definition boot_phase_invariant (s : Session) : Prop :=
  match boot s with
  | NotStarted => isLoading (state s) = false /\ pyodide (state s) = None
  | AwaitingLoad => isLoading (state s) = true /\ pyodide (state s) = None
  | Settled => isLoading (state s) = false
  end.


(** * Properties *)

(** ** Text and the capture buffer *)


(** While the sink is the closure over the array at [a], every call adds
    its line to that array and nothing reaches the browser's console. *)
Lemma captured_calls (calls : list (list Value)) (c : Console) (a : nat)
    (l0 : list string) :
  console_log c = CaptureLog a ->
  heap c !! a = Some l0 ->
  let c' := foldl (fun c args => call_console_log args c) c calls in
  console_log c' = CaptureLog a
  /\ heap c' !! a = Some (l0 ++ map format_line calls)%list
  /\ devtools c' = devtools c.
Proof.
  revert c l0.
  induction calls as [|args calls IH]; intros c l0 Hsink Hlogs; simpl.
  - by rewrite app_nil_r.
  - destruct (IH (call_console_log args c) (l0 ++ [format_line args])%list)
      as (H1 & H2 & H3).
    + unfold call_console_log. by rewrite Hsink.
    + unfold call_console_log, push_line. rewrite Hsink. simpl.
      rewrite list_lookup_alter, decide_True by reflexivity.
      by rewrite Hlogs.
    + split; [exact H1|]. split.
      * rewrite H2. by rewrite <- app_assoc.
      * rewrite H3. unfold call_console_log. by rewrite Hsink.
Qed.

(** The array that a run allocates starts empty, so after the unit's calls
    it holds exactly their lines. *)
Lemma fresh_logs (s : Session) (calls : list (list Value)) :
  let a := length (heap (console s)) in
  let c' := foldl (fun c args => call_console_log args c)
              (mkConsole (CaptureLog a) (heap (console s) ++ [[]])
                 (devtools (console s)))
              calls in
  console_log c' = CaptureLog a
  /\ heap c' !! a = Some (map format_line calls)
  /\ devtools c' = devtools (console s).
Proof.
  intros a c'.
  assert (Hfresh : (heap (console s) ++ [[]])%list !! a = Some ([] : list string)).
  { rewrite lookup_app_r by done. by rewrite Nat.sub_diag. }
  exact (captured_calls calls
           (mkConsole (CaptureLog a) (heap (console s) ++ [[]]) (devtools (console s)))
           a [] eq_refl Hfresh).
Qed.

(** The override's line for [console.log("a", 1, [1, 2], null)]. *)
Example format_line_mixed :
  format_line [VStr "a"; num 1; VArray [num 1; num 2]; VNull]
  = "a 1 [" +:+ nl +:+ "  1," +:+ nl +:+ "  2" +:+ nl +:+ "] null".
Proof. vm_compute. reflexivity. Qed.

(** [undefined] is not an object: it is printed by [String]. *)
Example format_line_undefined :
  format_line [VUndefined; VObject []] = "undefined {}".
Proof. vm_compute. reflexivity. Qed.

Example trim_strips_both_ends :
  trim (nl +:+ "  a b " +:+ nl) = "a b".
Proof. vm_compute. reflexivity. Qed.




(** ** Proof steps shared by the handler lemmas *)

Ltac unfold_handler :=
  unfold run_outcome, after_run, handleRunCode, handleLanguageChange,
    initPyodide_start, initPyodide_resume,
    bind, try_catch, try_finally, lift,
    setOutput, setCode, setLanguage, setPyodide, setIsLoading, setIsDarkMode,
    set_state, modify, console_error,
    read_console_log, alloc_logs, assign_console_log, call_new_Function,
    read_logs, runPython, get_message, to_string, ret, throw;
  simpl.

(** Case analysis on the conversions to strings that the goal still
    holds. *)
Ltac conversion_cases :=
  repeat match goal with
         | |- context [ToString ?v] => destruct (ToString v) as [?text|] eqn:?; simpl
         end.

(** Case analysis along the branches of [handleRunCode]: the language, the
    presence of the handle, how the executed code ends, whether the
    program has rebound [sys], the shape of a thrown value, and the
    outcome of each conversion. *)
Ltac handler_cases s :=
  unfold_handler;
  destruct (language (state s)) eqn:?; simpl;
  [ destruct (js_end (js_run (code (state s)))) as [?v|?e|] eqn:?; simpl;
    [ match goal with v : Value |- _ => destruct (is_undefined v) eqn:?; simpl end
    | match goal with e : Value |- _ => destruct e; simpl end
    | ]
  | destruct (pyodide (state s)) as [?h|] eqn:?; simpl;
    [ destruct (py_end (py_run (code (state s)))) as [?v|?e|] eqn:?; simpl;
      [ destruct (py_rebinds_sys (py_run (code (state s)))) eqn:?; simpl;
        match goal with v : Value |- _ => destruct (is_undefined v) eqn:?; simpl end
      | match goal with e : Value |- _ => destruct e; simpl end
      | ]
    | ] ];
  conversion_cases.

Ltac flatten_trace :=
  unfold new_events; simpl; rewrite <- ?app_assoc; simpl.

(** ** The execution dispatcher *)

Section RunProperties.
Context {R : Runtime}.

(** The component state after a run is what the setter calls on its trace
    make of the state before. *)
Lemma run_state_is_replayed (s : Session) :
  state (after_run s) = replay (new_events s (after_run s)) (state s).
Proof.
  handler_cases s; flatten_trace; rewrite ?drop_app_length; reflexivity.
Qed.


(** C3.  Python selected and no runtime handle: the output is the
    waiting message, the handler returns, and the invocation consists of
    the clearing of the output and the setting of the message: the
    virtual machine is not called and nothing else changes. *)
Theorem python_not_ready (s : Session) :
  language (state s) = python ->
  pyodide (state s) = None ->
  let waiting := "Python runtime is not ready yet. Please wait..." in
  run_outcome s = Returns tt
  /\ output (state (after_run s)) = waiting
  /\ new_events s (after_run s) =
       [EvUpdate (SetOutput ""); EvUpdate (SetOutput waiting)]
  /\ (forall script, EvRunPython script ∉ new_events s (after_run s))
  /\ vm (after_run s) = vm s
  /\ console (after_run s) = console s
  /\ boot (after_run s) = boot s
  /\ state (after_run s) = apply_update (SetOutput waiting) (state s).
Proof.
  intros Hl Hp waiting.
  assert (Hev : new_events s (after_run s) =
                  [EvUpdate (SetOutput ""); EvUpdate (SetOutput waiting)]).
  { unfold_handler. rewrite Hl, Hp. simpl. flatten_trace.
    apply drop_app_length. }
  repeat split; try exact Hev;
    try (unfold_handler; rewrite Hl, Hp; simpl; rewrite ?Hl, ?Hp; done).
  intros script Hin. rewrite Hev in Hin.
  repeat (apply elem_of_cons in Hin as [Hin|Hin]; [discriminate Hin|]).
  by apply elem_of_nil in Hin.
Qed.

(** C5.  Whatever the language, the readiness of the runtime and the fate
    of the execution (also when it never returns or the handler ends by
    throwing), the first thing an invocation of [handleRunCode] does is
    [setOutput("")]: it heads the events that the invocation adds to the
    trace, the component state right after it has the empty output, and
    the state that the invocation leaves is what the remaining setter
    calls make of that cleared state, so the empty output stays until a
    later [setOutput] replaces it. *)
Theorem run_clears_output_first (s : Session) :
  exists rest,
    let cleared := apply_update (SetOutput "") (state s) in
    trace (after_run s) = (trace s ++ EvUpdate (SetOutput "") :: rest)%list
    /\ new_events s (after_run s) = EvUpdate (SetOutput "") :: rest
    /\ states_through (new_events s (after_run s)) (state s)
       = cleared :: states_through rest cleared
    /\ output cleared = ""
    /\ state (after_run s) = replay rest cleared
    /\ ((forall text, EvUpdate (SetOutput text) ∉ rest) ->
        output (state (after_run s)) = "").
Proof.
  assert (Hhead : exists rest,
            trace (after_run s) = (trace s ++ EvUpdate (SetOutput "") :: rest)%list
            /\ new_events s (after_run s) = EvUpdate (SetOutput "") :: rest).
  { handler_cases s; flatten_trace;
      (eexists; split; [reflexivity | apply drop_app_length]). }
  destruct Hhead as (rest & Htrace & Hev). exists rest. simpl.
  pose proof (run_state_is_replayed s) as Hreplay. rewrite Hev in Hreplay.
  split; [exact Htrace|]. split; [exact Hev|]. split; [by rewrite Hev|].
  split; [reflexivity|]. split; [exact Hreplay|].
  intros Hnone. rewrite Hreplay. simpl.
  assert (Hkeep : forall (evs : list Event) (st : AppState),
            (forall text, EvUpdate (SetOutput text) ∉ evs) ->
            (forall u, EvUpdate u ∈ evs -> exists text, u = SetOutput text) ->
            replay evs st = st).
  { induction evs as [|ev evs IH]; intros st Hno Hall; [reflexivity|].
    destruct ev as [u| | | |]; simpl;
      try (apply IH; [intros text Hin; apply (Hno text); by right
                     |intros u' Hin; apply Hall; by right]).
    destruct (Hall u) as [text ->]; [by left|].
    exfalso. apply (Hno text). by left. }
  rewrite Hkeep; [reflexivity | exact Hnone |].
  intros u Hin.
  assert (Hin' : EvUpdate u ∈ new_events s (after_run s))
    by (rewrite Hev; by right).
  clear - Hin'. revert Hin'.
  handler_cases s; flatten_trace; rewrite ?drop_app_length; intros Hin;
    repeat (apply elem_of_cons in Hin as [Hin|Hin];
            [first [injection Hin as ->; eauto | discriminate Hin]|]);
    by apply elem_of_nil in Hin.
Qed.
End RunProperties.

(** ** The language switch *)

(** C8.  [handleLanguageChange] resets the source text to the placeholder
    of the new language and empties the output; the runtime handle, the
    loading flag and everything outside the three fields it sets stay as
    they were. *)
Theorem language_change_resets (s : Session) (newLanguage : Language) :
  let s' := snd (handleLanguageChange newLanguage s) in
  fst (handleLanguageChange newLanguage s) = Returns tt
  /\ code (state s') = match newLanguage with
                       | python => "# Start coding here..."
                       | javascript => "// Start coding here..."
                       end
  /\ output (state s') = ""
  /\ language (state s') = newLanguage
  /\ pyodide (state s') = pyodide (state s)
  /\ isLoading (state s') = isLoading (state s)
  /\ isDarkMode (state s') = isDarkMode (state s)
  /\ boot s' = boot s /\ vm s' = vm s /\ console s' = console s.
Proof. unfold_handler. done. Qed.

(** ** Runs of the embedded virtual machine, and failing runs *)

Section FailureProperties.
Context {R : Runtime}.


(** C7.  A Python run with the runtime ready whose execution throws: the
    output is [Error: ] and the error's message (the string that its
    [message] property converts to); the invocation consists
    of the clearing, the redirection, the execution and the setting of
    the output, so the script that restores [sys.stdout] is not run, and
    [sys.stdout] is still the in-memory buffer when the handler
    returns. *)
Theorem python_failure_skips_restore (s : Session) (py : PyodideHandle)
    (e : Value) :
  language (state s) = python ->
  pyodide (state s) = Some py ->
  py_end (py_run (code (state s))) = Throws e ->
  run_outcome s = Returns tt
  /\ (forall name message text,
        e = VError name message -> ToString message = Some text ->
        output (state (after_run s)) = "Error: " +:+ text)
  /\ new_events s (after_run s) =
       [EvUpdate (SetOutput ""); EvRunPython RedirectStdout;
        EvRunPython (UserCode (code (state s)));
        EvUpdate (SetOutput (output (state (after_run s))))]
  /\ (EvRunPython RestoreStdout ∉ new_events s (after_run s))
  /\ sys_stdout (vm (after_run s)) =
       StringIO (py_printed (py_run (code (state s)))).
Proof.
  intros Hl Hp He.
  assert (Hev : run_outcome s = Returns tt
    /\ (forall name message text,
        e = VError name message -> ToString message = Some text ->
        output (state (after_run s)) = "Error: " +:+ text)
    /\ new_events s (after_run s) =
       [EvUpdate (SetOutput ""); EvRunPython RedirectStdout;
        EvRunPython (UserCode (code (state s)));
        EvUpdate (SetOutput (output (state (after_run s))))]
    /\ sys_stdout (vm (after_run s)) =
         StringIO (py_printed (py_run (code (state s))))).
  { unfold_handler. rewrite Hl, Hp. simpl. rewrite He. simpl.
    destruct (py_rebinds_sys (py_run (code (state s)))); simpl;
      (destruct e; simpl; conversion_cases; flatten_trace;
       rewrite ?drop_app_length;
       (repeat split; try done; intros ? ? ? [=] ?; subst; simpl in *; congruence)). }
  destruct Hev as (H1 & H2 & H3 & H4). repeat split; try done.
  rewrite H3. intros Hin.
  repeat (apply elem_of_cons in Hin as [Hin|Hin]; [discriminate Hin|]).
  by apply elem_of_nil in Hin.
Qed.

(** C10.  A JavaScript run whose execution throws: [console.log] is
    assigned once, to the closure over this run's array, and never
    assigned back; when the handler is over the global is still that
    closure, and the calls of [console.log] made afterwards add their
    lines to the abandoned array without reaching the browser's
    console.  The handler returns after setting the output, except when
    the thrown error has a message that cannot be converted to a string:
    then the conversion throws inside the [catch] block and no output is
    set. *)
Theorem native_failure_keeps_override (s : Session) (e : Value) :
  language (state s) = javascript ->
  js_end (js_run (code (state s))) = Throws e ->
  let a := length (heap (console s)) in
  let lines := map format_line (js_logs (js_run (code (state s)))) in
  match e with
  | VError _ message =>
      match ToString message with
      | Some _ => run_outcome s = Returns tt
      | None => run_outcome s = Throws cannot_convert
      end
  | _ => run_outcome s = Returns tt
  end
  /\ console_log (console (after_run s)) = CaptureLog a
  /\ new_events s (after_run s) =
       ([EvUpdate (SetOutput ""); EvAssignConsoleLog (CaptureLog a);
         EvCallFunction (code (state s))]
        ++ match run_outcome s with
           | Returns _ => [EvUpdate (SetOutput (output (state (after_run s))))]
           | _ => []
           end)%list
  /\ heap (console (after_run s)) !! a = Some lines
  /\ devtools (console (after_run s)) = devtools (console s)
  /\ forall later,
       let c' := foldl (fun c args => call_console_log args c)
                   (console (after_run s)) later in
       console_log c' = CaptureLog a
       /\ heap c' !! a = Some (lines ++ map format_line later)%list
       /\ devtools c' = devtools (console s).
Proof.
  intros Hl He a lines.
  destruct (fresh_logs s (js_logs (js_run (code (state s)))))
    as (Hsink & Hlines & Hdev).
  assert (Hconsole : console (after_run s) =
            foldl (fun c args => call_console_log args c)
              (mkConsole (CaptureLog a) (heap (console s) ++ [[]])
                 (devtools (console s)))
              (js_logs (js_run (code (state s))))).
  { unfold_handler. rewrite Hl. simpl. rewrite He. simpl.
    destruct e; simpl; conversion_cases; reflexivity. }
  assert (Hev : match e with
                | VError _ message =>
                    match ToString message with
                    | Some _ => run_outcome s = Returns tt
                    | None => run_outcome s = Throws cannot_convert
                    end
                | _ => run_outcome s = Returns tt
                end
    /\ new_events s (after_run s) =
       ([EvUpdate (SetOutput ""); EvAssignConsoleLog (CaptureLog a);
         EvCallFunction (code (state s))]
        ++ match run_outcome s with
           | Returns _ => [EvUpdate (SetOutput (output (state (after_run s))))]
           | _ => []
           end)%list).
  { unfold_handler. rewrite Hl. simpl. rewrite He. simpl.
    destruct e; simpl; conversion_cases; flatten_trace;
      by rewrite ?drop_app_length. }
  destruct Hev as [Hret Hev]. rewrite Hconsole.
  split; [exact Hret|]. split; [exact Hsink|]. split; [exact Hev|].
  split; [exact Hlines|]. split; [exact Hdev|].
  intros later c'.
  destruct (captured_calls later _ a lines Hsink Hlines) as (H1 & H2 & H3).
  repeat split; [exact H1|exact H2|].
  exact (eq_trans H3 Hdev).
Qed.

(** A JavaScript run that returns puts back the sink it found. *)
Lemma native_run_restores_sink (s : Session) (v : Value) :
  language (state s) = javascript ->
  js_end (js_run (code (state s))) = Returns v ->
  console_log (console (after_run s)) = console_log (console s)
  /\ devtools (console (after_run s)) = devtools (console s).
Proof.
  intros Hl Hv.
  destruct (fresh_logs s (js_logs (js_run (code (state s)))))
    as (_ & _ & Hdev).
  unfold_handler. rewrite Hl. simpl. rewrite Hv. simpl.
  destruct (is_undefined v); simpl; conversion_cases;
    (split; [reflexivity | exact Hdev]).
Qed.

(** Once the sink is a capture closure, no later run makes it the
    browser's function again: a successful run restores what it saved,
    which is a closure, and a failing run leaves its own. *)
Lemma capture_outlives_runs (s : Session) :
  console_log (console s) <> NativeLog ->
  console_log (console (after_run s)) <> NativeLog.
Proof.
  intros Hsink.
  destruct (fresh_logs s (js_logs (js_run (code (state s)))))
    as (Hcap & _ & _).
  handler_cases s; try done; by rewrite Hcap.
Qed.
End FailureProperties.

(** ** Errors that leave the handler *)

Section ErrorProperties.
Context {R : Runtime}.

(** The only error that leaves [handleRunCode] is the [TypeError] of the
    conversion of [error.message] in the last [catch] block, for an error
    thrown by the JavaScript unit. *)
Lemma run_throws_inversion (s : Session) (e' : Value) :
  run_outcome s = Throws e' ->
  language (state s) = javascript
  /\ e' = cannot_convert
  /\ exists name message,
       js_end (js_run (code (state s))) = Throws (VError name message)
       /\ ToString message = None.
Proof.
  handler_cases s; try discriminate; intros [= <-]; eauto 6.
Qed.

(** C6.  The containment of errors has a gap.  When the JavaScript unit
    throws an instance of [Error] whose [message] cannot be converted to a
    string, the conversion in the last [catch] block throws in its turn:
    the [TypeError] leaves [handleRunCode], and the output stays empty,
    with neither the error line nor the fallback. *)
Theorem unconvertible_message_escapes (s : Session) (name : string)
    (message : Value) :
  language (state s) = javascript ->
  js_end (js_run (code (state s))) = Throws (VError name message) ->
  ToString message = None ->
  run_outcome s = Throws cannot_convert
  /\ output (state (after_run s)) = ""
  /\ new_events s (after_run s) =
       [EvUpdate (SetOutput "");
        EvAssignConsoleLog (CaptureLog (length (heap (console s))));
        EvCallFunction (code (state s))].
Proof.
  intros Hl He Hm. unfold_handler. rewrite Hl. simpl. rewrite He. simpl.
  rewrite Hm. simpl. flatten_trace. by rewrite drop_app_length.
Qed.
End ErrorProperties.

(** ** The bootstrap and the loading flag *)

Lemma committed_session {A} (r : Completion A * Session) (s' : Session) :
  committed r = Some s' -> snd r = s'.
Proof. destruct r as [[a|e|] s]; simpl; congruence. Qed.

Lemma ended_session {A} (r : Completion A * Session) (s' : Session) :
  ended r = Some s' -> snd r = s'.
Proof. destruct r as [[a|e|] s]; simpl; congruence. Qed.

Section BootProperties.
Context {R : Runtime}.

(** [handleRunCode] touches neither the handle nor the loading flag,
    nor the progress of [initPyodide]. *)
Lemma run_keeps_runtime_flags (s : Session) :
  boot (after_run s) = boot s
  /\ isLoading (state (after_run s)) = isLoading (state s)
  /\ pyodide (state (after_run s)) = pyodide (state s).
Proof. handler_cases s; repeat split; congruence. Qed.

(** Nor do the states between its setter calls differ from the state
    before in these two fields. *)
Lemma run_states_keep_runtime_flags (s : Session) (st : AppState) :
  st ∈ states_through (new_events s (after_run s)) (state s) ->
  isLoading st = isLoading (state s) /\ pyodide st = pyodide (state s).
Proof.
  handler_cases s; flatten_trace; rewrite ?drop_app_length; simpl; intros Hin;
    repeat (apply elem_of_cons in Hin as [->|Hin]; [by split|]);
    by apply elem_of_nil in Hin.
Qed.

(** The two setter calls of the settling turn, in the order in which
    they are made: the handle first, the flag after it. *)
Lemma resume_sets_handle_then_flag (s : Session) (py : PyodideHandle) :
  new_events s (snd (initPyodide_resume (Returns py) s)) =
    [EvUpdate (SetPyodide (Some py)); EvUpdate (SetIsLoading false)].
Proof. unfold_handler. flatten_trace. apply drop_app_length. Qed.

Lemma turn_preserves_boot_invariant (s s' : Session) (t : Turn) :
  boot_invariant s -> turn t s = Some s' -> boot_invariant s'.
Proof.
  unfold boot_invariant. intros Hinv Hturn.
  destruct t as [|loaded| |newLanguage|text|]; simpl in Hturn.
  - destruct (boot s); try discriminate.
    injection Hturn as <-. simpl. tauto.
  - destruct loaded as [py|e|]; try discriminate;
      (destruct (boot s); try discriminate);
      injection Hturn as <-; done.
  - apply ended_session in Hturn. fold (after_run s) in Hturn. subst s'.
    destruct (run_keeps_runtime_flags s) as (-> & -> & ->). exact Hinv.
  - injection Hturn as <-. exact Hinv.
  - injection Hturn as <-. exact Hinv.
  - injection Hturn as <-. exact Hinv.
Qed.

Lemma reachable_boot_invariant (s : Session) :
  reachable s -> boot_invariant s.
Proof.
  induction 1 as [|s t s' _ IH Hturn].
  - unfold boot_invariant. simpl. done.
  - exact (turn_preserves_boot_invariant s s' t IH Hturn).
Qed.

Lemma turn_preserves_boot_phase_invariant (s s' : Session) (t : Turn) :
  boot_phase_invariant s -> turn t s = Some s' -> boot_phase_invariant s'.
Proof.
  unfold boot_phase_invariant. intros Hinv Hturn.
  destruct t as [|loaded| |newLanguage|text|]; simpl in Hturn.
  - destruct (boot s); try discriminate.
    injection Hturn as <-. simpl. tauto.
  - destruct loaded as [py|e|]; try discriminate;
      (destruct (boot s); try discriminate);
      injection Hturn as <-; done.
  - apply ended_session in Hturn. fold (after_run s) in Hturn. subst s'.
    destruct (run_keeps_runtime_flags s) as (-> & -> & ->). exact Hinv.
  - injection Hturn as <-. exact Hinv.
  - injection Hturn as <-. exact Hinv.
  - injection Hturn as <-. exact Hinv.
Qed.

Lemma reachable_boot_phase_invariant (s : Session) :
  reachable s -> boot_phase_invariant s.
Proof.
  induction 1 as [|s t s' _ IH Hturn].
  - unfold boot_phase_invariant. simpl. done.
  - exact (turn_preserves_boot_phase_invariant s s' t IH Hturn).
Qed.

Lemma between_turns_not_both (s : Session) :
  reachable s ->
  ~ (isLoading (state s) = true /\ pyodide (state s) <> None).
Proof.
  intros Hreach [Hloading Hready].
  pose proof (reachable_boot_invariant s Hreach) as Hinv.
  unfold boot_invariant in Hinv.
  destruct (boot s); [destruct Hinv| |]; congruence.
Qed.

(** C9, as amended.  In every session between two turns (the two halves
    of the bootstrap, runs, language switches, edits, theme toggles),
    [isLoading] and the presence of the [pyodide] handle are not both
    true.  Among the states after each single setter call there is one
    kind in which they are: the state of the settling stretch of
    [initPyodide] after [setPyodide] has stored the handle and before the
    [finally] block has cleared the flag; and it is the only one. *)
Theorem loading_excludes_ready :
  (forall s, reachable s ->
     ~ (isLoading (state s) = true /\ pyodide (state s) <> None))
  /\ (forall st, seen st ->
        isLoading st = true -> pyodide st <> None ->
        exists s py,
          reachable s /\ boot s = AwaitingLoad
          /\ st = apply_update (SetPyodide (Some py)) (state s))
  /\ (forall s py, reachable s -> boot s = AwaitingLoad ->
        let st := apply_update (SetPyodide (Some py)) (state s) in
        seen st /\ isLoading st = true /\ pyodide st <> None).
Proof.
  split; [exact between_turns_not_both|]. split.
  - intros st [->|(s & t & s' & Hreach & Hattempt & Hin)] Hloading Hready;
      [discriminate Hloading|].
    pose proof (reachable_boot_phase_invariant s Hreach) as Hinv.
    unfold boot_phase_invariant in Hinv.
    destruct t as [|loaded| |newLanguage|text|]; simpl in Hattempt.
    + destruct (boot s); try discriminate.
      injection Hattempt as <-. destruct Hinv as [_ Hnone].
      revert Hin. unfold_handler. flatten_trace. rewrite drop_app_length. simpl.
      intros Hin. apply elem_of_cons in Hin as [->|Hin];
        [by destruct Hready | by apply elem_of_nil in Hin].
    + destruct loaded as [py|e|]; try discriminate;
        (destruct (boot s) eqn:Hboot; try discriminate);
        injection Hattempt as <-; revert Hin; unfold_handler; flatten_trace;
        rewrite drop_app_length; simpl; intros Hin.
      * apply elem_of_cons in Hin as [->|Hin]; [by exists s, py|].
        apply elem_of_cons in Hin as [->|Hin];
          [discriminate Hloading | by apply elem_of_nil in Hin].
      * apply elem_of_cons in Hin as [->|Hin];
          [discriminate Hloading | by apply elem_of_nil in Hin].
    + injection Hattempt as <-. fold (after_run s) in Hin.
      destruct (run_states_keep_runtime_flags s st Hin) as [Hl Hp].
      exfalso. apply (between_turns_not_both s Hreach). split; congruence.
    + injection Hattempt as <-. exfalso.
      apply (between_turns_not_both s Hreach).
      revert Hin. unfold_handler. flatten_trace. rewrite drop_app_length. simpl.
      intros Hin.
      repeat (apply elem_of_cons in Hin as [->|Hin]; [by split|]).
      by apply elem_of_nil in Hin.
    + injection Hattempt as <-. exfalso.
      apply (between_turns_not_both s Hreach).
      revert Hin. unfold_handler. flatten_trace. rewrite drop_app_length. simpl.
      intros Hin.
      repeat (apply elem_of_cons in Hin as [->|Hin]; [by split|]).
      by apply elem_of_nil in Hin.
    + injection Hattempt as <-. exfalso.
      apply (between_turns_not_both s Hreach).
      revert Hin. unfold_handler. flatten_trace. rewrite drop_app_length. simpl.
      intros Hin.
      repeat (apply elem_of_cons in Hin as [->|Hin]; [by split|]).
      by apply elem_of_nil in Hin.
  - intros s py Hreach Hboot st.
    pose proof (reachable_boot_phase_invariant s Hreach) as Hinv.
    unfold boot_phase_invariant in Hinv. rewrite Hboot in Hinv.
    destruct Hinv as [Hloading _].
    split; [|split; [exact Hloading | discriminate]].
    right. exists s, (LoadSettled (Returns py)), (snd (initPyodide_resume (Returns py) s)).
    split; [exact Hreach|]. split; [simpl; by rewrite Hboot|].
    rewrite resume_sets_handle_then_flag. simpl. by left.
Qed.

(** No turn gives the page its own [console.log] back once a failed run
    has left a capture closure in its place. *)
Lemma capture_outlives_turns (ts : list Turn) (s s' : Session) :
  console_log (console s) <> NativeLog ->
  turns ts s = Some s' ->
  console_log (console s') <> NativeLog.
Proof.
  revert s. induction ts as [|t ts IH]; intros s Hsink Hturns; simpl in Hturns.
  - by injection Hturns as <-.
  - destruct (turn t s) as [s1|] eqn:Hturn; [|discriminate].
    apply (IH s1); [|exact Hturns].
    destruct t as [|loaded| |newLanguage|text|]; simpl in Hturn.
    + destruct (boot s); try discriminate. by injection Hturn as <-.
    + destruct loaded as [py|e|]; try discriminate;
        (destruct (boot s); try discriminate);
        by injection Hturn as <-.
    + apply ended_session in Hturn. fold (after_run s) in Hturn. subst s1.
      by apply capture_outlives_runs.
    + by injection Hturn as <-.
    + by injection Hturn as <-.
    + by injection Hturn as <-.
Qed.

(** Sessions produced by [turns] are reachable. *)
Lemma turns_reachable (ts : list Turn) (s s' : Session) :
  reachable s -> turns ts s = Some s' -> reachable s'.
Proof.
  revert s. induction ts as [|t ts IH]; intros s Hreach Hturns; simpl in Hturns.
  - by injection Hturns as <-.
  - destruct (turn t s) as [s1|] eqn:Hturn; [|discriminate].
    exact (IH s1 (reachable_turn s t s1 Hreach Hturn) Hturns).
Qed.
End BootProperties.

(** ** Scenarios on the reference interpreter *)




(** C4, as amended.  For the source text [console.log("hi"); 42] the
    function built by [new Function] logs [hi] and returns [undefined]:
    the value of the trailing expression statement is dropped, and the
    output is [hi].  With an explicit [return 42] the output is [hi],
    a newline and [=> 42]. *)
Theorem scenario1_output :
  js_end (Reference.run_js scenario1_source) = Returns VUndefined
  /\ shown (R := Reference.runtime) [Mount; Edit scenario1_source; ClickRun]
     = Some "hi"
  /\ shown (R := Reference.runtime) [Mount; Edit scenario1_with_return; ClickRun]
     = Some ("hi" +:+ nl +:+ "=> 42").
Proof. repeat split; vm_compute; reflexivity. Qed.

(** C4, as stated, fails: the output for [console.log("hi"); 42] is not
    [hi], newline, [=> 42]. *)
Lemma scenario1_counterexample :
  shown (R := Reference.runtime) [Mount; Edit scenario1_source; ClickRun]
  <> Some ("hi" +:+ nl +:+ "=> 42").
Proof. vm_compute. discriminate. Qed.

(** Scenario 2: a unit that throws [new Error("bad")] shows [Error: bad]. *)
Example scenario2_output :
  shown (R := Reference.runtime) [Mount; Edit scenario2_source; ClickRun]
  = Some "Error: bad".
Proof. vm_compute. reflexivity. Qed.

(** C9, as stated, fails: when the load has succeeded, the state after
    [setPyodide] and before [setIsLoading(false)] has the loading flag and
    the handle together. *)
Lemma mid_settle_counterexample :
  let st := apply_update (SetPyodide (Some PyodideInstance))
              (apply_update (SetIsLoading true) initial_state) in
  seen (R := Reference.runtime) st
  /\ isLoading st = true
  /\ pyodide st <> None.
Proof.
  intros st. split; [|split; [reflexivity | discriminate]].
  right.
  exists (with_boot AwaitingLoad (snd (initPyodide_start initial_session))),
    (LoadSettled (Returns PyodideInstance)),
    (snd (initPyodide_resume (Returns PyodideInstance)
            (with_boot AwaitingLoad (snd (initPyodide_start initial_session))))).
  split; [|split; [reflexivity|]].
  - apply (reachable_turn initial_session Mount); [apply reachable_initial|].
    reflexivity.
  - vm_compute. by left.
Qed.

(** ** The theorems at concrete sessions *)



(** A runtime in which every JavaScript unit loops forever: the output
    is cleared and stays so. *)
Lemma run_clears_output_first_witness :
  let looping := mkRuntime (fun _ => mkJsBehaviour [] Diverges) Reference.run_py in
  let s := session_with javascript "" None in
  output (state s) = "previous output"
  /\ new_events s (after_run (R := looping) s)
     = [EvUpdate (SetOutput ""); EvAssignConsoleLog (CaptureLog 0);
        EvCallFunction ""]
  /\ output (state (after_run (R := looping) s)) = "".
Proof.
  intros looping s. split; [reflexivity|]. split; [reflexivity|].
  destruct (run_clears_output_first (R := looping) s)
    as (rest & _ & Hev & _ & _ & _ & Hempty).
  apply Hempty. intros text Hin.
  assert (Hrest : rest = [EvAssignConsoleLog (CaptureLog 0); EvCallFunction ""])
    by (injection Hev as <-; reflexivity).
  rewrite Hrest in Hin.
  repeat (apply elem_of_cons in Hin as [Hin|Hin]; [discriminate Hin|]).
  by apply elem_of_nil in Hin.
Defined.

Lemma python_not_ready_witness :
  let s := session_with python scenario3_source None in
  language (state s) = python
  /\ pyodide (state s) = None
  /\ output (state (after_run (R := Reference.runtime) s))
     = "Python runtime is not ready yet. Please wait..."
  /\ vm (after_run (R := Reference.runtime) s) = vm s.
Proof.
  intros s. split; [reflexivity|]. split; [reflexivity|].
  destruct (python_not_ready (R := Reference.runtime) s eq_refl eq_refl)
    as (_ & Hout & _ & _ & Hvm & _).
  split; [exact Hout | exact Hvm].
Defined.

Lemma python_failure_skips_restore_witness :
  let s := session_with python raising_source (Some PyodideInstance) in
  language (state s) = python
  /\ pyodide (state s) = Some PyodideInstance
  /\ py_end (Reference.run_py (code (state s)))
     = Throws (VError "PythonError"
                 (VStr (Reference.traceback "Exception: boom")))
  /\ output (state (after_run (R := Reference.runtime) s))
     = "Error: " +:+ Reference.traceback "Exception: boom"
  /\ sys_stdout (vm (after_run (R := Reference.runtime) s)) = StringIO "".
Proof.
  intros s. split; [reflexivity|]. split; [reflexivity|]. split; [reflexivity|].
  destruct (python_failure_skips_restore (R := Reference.runtime) s
              PyodideInstance
              (VError "PythonError" (VStr (Reference.traceback "Exception: boom")))
              eq_refl eq_refl eq_refl) as (_ & Hout & _ & _ & Hstream).
  split; [exact (Hout _ _ _ eq_refl eq_refl) | exact Hstream].
Defined.

Lemma native_failure_keeps_override_witness :
  let s := session_with javascript scenario2_source None in
  language (state s) = javascript
  /\ js_end (Reference.run_js (code (state s)))
     = Throws (VError "Error" (VStr "bad"))
  /\ console_log (console (after_run (R := Reference.runtime) s)) = CaptureLog 0
  /\ devtools (call_console_log [VStr "later"]
                 (console (after_run (R := Reference.runtime) s))) = []
  /\ heap (call_console_log [VStr "later"]
             (console (after_run (R := Reference.runtime) s))) !! 0
     = Some ["later"].
Proof.
  intros s. split; [reflexivity|]. split; [reflexivity|].
  destruct (native_failure_keeps_override (R := Reference.runtime) s
              (VError "Error" (VStr "bad")) eq_refl eq_refl)
    as (_ & Hsink & _ & _ & _ & Hlater).
  split; [exact Hsink|].
  destruct (Hlater [[VStr "later"]]) as (_ & Hheap & Hdev).
  split; [exact Hdev | exact Hheap].
Defined.

Lemma unconvertible_message_escapes_witness :
  let s := session_with javascript unconvertible_message_source None in
  language (state s) = javascript
  /\ js_end (Reference.run_js (code (state s)))
     = Throws (VError "Error" (VObject [("toString", VNull)]))
  /\ ToString (VObject [("toString", VNull)]) = None
  /\ run_outcome (R := Reference.runtime) s = Throws cannot_convert
  /\ output (state (after_run (R := Reference.runtime) s)) = "".
Proof.
  intros s. split; [reflexivity|]. split; [reflexivity|]. split; [reflexivity|].
  destruct (unconvertible_message_escapes (R := Reference.runtime) s "Error"
              (VObject [("toString", VNull)]) eq_refl eq_refl eq_refl)
    as (Hthrows & Hout & _).
  split; [exact Hthrows | exact Hout].
Defined.

Lemma loading_excludes_ready_witness :
  exists s,
    turns (R := Reference.runtime)
      [Mount; LoadSettled (Returns PyodideInstance); ClickLanguage python;
       Edit scenario3_source; ClickRun] initial_session = Some s
    /\ reachable (R := Reference.runtime) s
    /\ ~ (isLoading (state s) = true /\ pyodide (state s) <> None).
Proof.
  eexists. split; [vm_compute; reflexivity|].
  match goal with
  | |- reachable ?s /\ _ => assert (Hreach : reachable (R := Reference.runtime) s)
  end.
  { apply (turns_reachable
             [Mount; LoadSettled (Returns PyodideInstance);
              ClickLanguage python; Edit scenario3_source; ClickRun]
             initial_session); [apply reachable_initial|].
    vm_compute. reflexivity. }
  split; [exact Hreach|].
  exact (proj1 (loading_excludes_ready (R := Reference.runtime)) _ Hreach).
Defined.

(** * Further properties of the handlers and of the page *)

(** ** Text *)

Lemma append_assoc (a b c : string) : (a +:+ b) +:+ c = a +:+ b +:+ c.
Proof.
  induction a as [|x a IH]; [done|].
  change (String x ((a +:+ b) +:+ c) = String x (a +:+ b +:+ c)). by rewrite IH.
Qed.

Lemma join_app (sep : string) (l1 l2 : list string) :
  l1 <> [] -> l2 <> [] ->
  join sep (l1 ++ l2) = join sep l1 +:+ sep +:+ join sep l2.
Proof.
  intros H1 H2. induction l1 as [|x l1 IH]; [done|].
  destruct l1 as [|y l1].
  - destruct l2 as [|z l2]; [done|]. reflexivity.
  - change (x +:+ sep +:+ join sep ((y :: l1) ++ l2)
            = (x +:+ sep +:+ join sep (y :: l1)) +:+ sep +:+ join sep l2).
    rewrite IH by done. by rewrite !append_assoc.
Qed.





(** X10.  The arguments of one [console.log] call are rendered one by one
    and joined by single spaces: the line of a call with the arguments
    [args1] followed by [args2] is the line of [args1], a space, and the
    line of [args2]. *)
Theorem format_line_app (args1 args2 : list Value) :
  args1 <> [] -> args2 <> [] ->
  format_line (args1 ++ args2) = format_line args1 +:+ " " +:+ format_line args2.
Proof.
  intros H1 H2. unfold format_line. rewrite map_app.
  apply join_app; by destruct args1, args2.
Qed.

(** ** The capture arrays *)

(** While the sink is the closure over the array at [a], calls change no
    other array and allocate none. *)
Lemma captured_calls_elsewhere (calls : list (list Value)) (c : Console) (a : nat) :
  console_log c = CaptureLog a ->
  let c' := foldl (fun c args => call_console_log args c) c calls in
  length (heap c') = length (heap c)
  /\ forall b, b <> a -> heap c' !! b = heap c !! b.
Proof.
  revert c. induction calls as [|args calls IH]; intros c Hsink; simpl; [done|].
  assert (Hstep : console_log (call_console_log args c) = CaptureLog a)
    by (unfold call_console_log; by rewrite Hsink).
  assert (Hheap : heap (call_console_log args c)
                  = alter (fun logs => (logs ++ [format_line args])%list) a (heap c))
    by (unfold call_console_log, push_line; by rewrite Hsink).
  destruct (IH _ Hstep) as [Hlen Hother]. split.
  - rewrite Hlen, Hheap. apply length_alter.
  - intros b Hb. rewrite (Hother b Hb), Hheap. by apply list_lookup_alter_ne.
Qed.

(** ** The Run button *)

(** X13.  A disabled Run button is always grey.  The converse fails in
    exactly one situation: with JavaScript selected while the runtime is
    loading the button is grey yet enabled.  With JavaScript selected the
    button is never disabled. *)
Theorem run_button_style_and_guard (st : AppState) :
  (run_disabled st = true -> run_button_class st = "bg-gray-400 cursor-not-allowed")
  /\ (run_button_class st = "bg-gray-400 cursor-not-allowed" /\ run_disabled st = false
      <-> language st = javascript /\ isLoading st = true)
  /\ (language st = javascript -> run_disabled st = false).
Proof.
  unfold run_disabled, run_button_class, is_python, has_pyodide.
  destruct (language st), (isLoading st), (pyodide st); simpl;
    intuition (try discriminate; try congruence).
Qed.

Section FurtherProperties.
Context {R : Runtime}.

(** ** What a run changes and what it leaves alone *)

(** X1.  Whatever happens in a run, the only setter it calls is
    [setOutput]: the state afterwards is the state before with a new
    output, and the progress of the bootstrap is untouched. *)
Theorem run_changes_only_output (s : Session) :
  state (after_run s) = apply_update (SetOutput (output (state (after_run s)))) (state s)
  /\ boot (after_run s) = boot s
  /\ (forall u, EvUpdate u ∈ new_events s (after_run s) -> exists text, u = SetOutput text).
Proof.
  handler_cases s; flatten_trace; rewrite ?drop_app_length;
  (split; [congruence|]; split; [reflexivity|]);
  intros u Hin;
  repeat (apply elem_of_cons in Hin as [Hin|Hin];
          [first [injection Hin as ->; eauto | discriminate Hin]|]);
  by apply elem_of_nil in Hin.
Qed.


(** X7.  A JavaScript run writes to the array it allocated and to no
    other: that array ends up with one line per call, the heap grows by
    exactly this array, and the arrays of earlier runs keep their
    contents, also when a stale closure over one of them was the sink
    before the run. *)
Theorem run_writes_only_its_own_array (s : Session) :
  language (state s) = javascript ->
  let a := length (heap (console s)) in
  heap (console (after_run s)) !! a
    = Some (map format_line (js_logs (js_run (code (state s)))))
  /\ length (heap (console (after_run s))) = S a
  /\ forall b, b < a -> heap (console (after_run s)) !! b = heap (console s) !! b.
Proof.
  intros Hl a.
  destruct (fresh_logs s (js_logs (js_run (code (state s))))) as (_ & Hown & _).
  destruct (captured_calls_elsewhere (js_logs (js_run (code (state s))))
              (mkConsole (CaptureLog a) (heap (console s) ++ [[]]) (devtools (console s)))
              a eq_refl) as [Hlen Hother].
  simpl in Hlen, Hother.
  assert (Hheap : heap (console (after_run s)) =
            heap (foldl (fun c args => call_console_log args c)
                    (mkConsole (CaptureLog a) (heap (console s) ++ [[]])
                       (devtools (console s)))
                    (js_logs (js_run (code (state s)))))).
  { unfold_handler. rewrite Hl. simpl.
    destruct (js_end (js_run (code (state s)))) as [v|e|]; simpl;
      [destruct (is_undefined v); simpl | destruct e; simpl |];
      conversion_cases; reflexivity. }
  rewrite Hheap. split; [exact Hown|]. split.
  - rewrite Hlen, length_app. simpl. lia.
  - intros b Hb. rewrite Hother by lia. by apply lookup_app_l.
Qed.

(** ** The order of the steps *)



(** ** After a failed run *)

(** X11.  After a JavaScript run that threw, no sequence of later turns
    (runs that succeed included) makes [console.log] the browser's own
    function again. *)
Theorem failed_native_run_loses_console (s s' : Session) (e : Value) (ts : list Turn) :
  language (state s) = javascript ->
  js_end (js_run (code (state s))) = Throws e ->
  turns ts (after_run s) = Some s' ->
  console_log (console s') <> NativeLog.
Proof.
  intros Hl He Hturns.
  apply (capture_outlives_turns ts (after_run s)); [|exact Hturns].
  destruct (fresh_logs s (js_logs (js_run (code (state s))))) as (Hsink & _ & _).
  unfold_handler. rewrite Hl. simpl. rewrite He. simpl.
  destruct e; simpl; conversion_cases; by rewrite Hsink.
Qed.


(** ** The output panel *)

(** X14.  A JavaScript run that returns [undefined] and whose lines join
    to the empty string (no call at all, or a single call that prints
    the empty line) leaves the panel showing its prompt, exactly as
    before any run. *)
Theorem silent_run_shows_placeholder (s : Session) :
  language (state s) = javascript ->
  js_end (js_run (code (state s))) = Returns VUndefined ->
  join nl (map format_line (js_logs (js_run (code (state s))))) = "" ->
  output_panel (state (after_run s)) = "Run your code to see the output here..."
  /\ output_panel (state (after_run s)) = output_panel initial_state.
Proof.
  intros Hl Hv Hlines.
  destruct (fresh_logs s (js_logs (js_run (code (state s))))) as (_ & Hown & _).
  assert (Hout : output (state (after_run s)) = "").
  { unfold_handler. rewrite Hl. simpl. rewrite Hv. simpl. rewrite Hown. simpl.
    rewrite Hlines. reflexivity. }
  unfold output_panel. rewrite Hout. done.
Qed.


(** ** The bootstrap and the Run button *)

(** X18.  A click on an enabled Run button that comes back has executed
    the source text: the call of the unit, or the run of the program in
    the virtual machine, is among the events of the turn. *)
Theorem enabled_click_executes (s s' : Session) :
  click_run s = Some s' ->
  s' = after_run s
  /\ run_outcome s = Returns tt
  /\ match language (state s) with
     | javascript => EvCallFunction (code (state s)) ∈ new_events s s'
     | python => EvRunPython (UserCode (code (state s))) ∈ new_events s s'
     end.
Proof.
  unfold click_run, run_disabled, is_python, has_pyodide. intros Hclick.
  destruct (language (state s)) eqn:Hl; simpl in Hclick.
  - assert (Hs : s' = after_run s) by (symmetry; by apply committed_session).
    assert (Hret : run_outcome s = Returns tt).
    { unfold run_outcome. destruct (handleRunCode s) as [[[]|e|] s1]; done. }
    subst s'. split; [done|]. split; [exact Hret|].
    clear Hclick Hret. unfold_handler. rewrite Hl. simpl.
    destruct (js_end (js_run (code (state s)))) as [v|e|]; simpl;
      [destruct (is_undefined v); simpl|destruct e; simpl|];
      conversion_cases; flatten_trace; rewrite ?drop_app_length;
      (do 2 (apply elem_of_cons; right); apply elem_of_cons; by left).
  - destruct (isLoading (state s)); [discriminate|].
    destruct (pyodide (state s)) as [py|] eqn:Hp; [|discriminate]. simpl in Hclick.
    assert (Hs : s' = after_run s) by (symmetry; by apply committed_session).
    assert (Hret : run_outcome s = Returns tt).
    { unfold run_outcome. destruct (handleRunCode s) as [[[]|e|] s1]; done. }
    subst s'. split; [done|]. split; [exact Hret|].
    clear Hclick Hret. unfold_handler. rewrite Hl, Hp. simpl.
    destruct (py_end (py_run (code (state s)))) as [v|e|]; simpl;
      [destruct (py_rebinds_sys (py_run (code (state s)))); simpl;
       destruct (is_undefined v); simpl
      |destruct e; simpl|];
      conversion_cases; flatten_trace; rewrite ?drop_app_length;
      (do 2 (apply elem_of_cons; right); apply elem_of_cons; by left).
Qed.

Lemma settled_turn (s s' : Session) (t : Turn) :
  boot s = Settled -> turn t s = Some s' ->
  boot s' = Settled
  /\ pyodide (state s') = pyodide (state s)
  /\ isLoading (state s') = isLoading (state s).
Proof.
  intros Hb Hturn.
  destruct t as [|loaded| |newLanguage|text|]; simpl in Hturn.
  - rewrite Hb in Hturn. discriminate.
  - rewrite Hb in Hturn. destruct loaded; discriminate.
  - apply ended_session in Hturn. fold (after_run s) in Hturn. subst s'.
    destruct (run_keeps_runtime_flags s) as (-> & -> & ->). done.
  - by injection Hturn as <-.
  - by injection Hturn as <-.
  - by injection Hturn as <-.
Qed.

(** X19.  Once [initPyodide] has settled, nothing in the session changes
    the handle or the loading flag again: there is no second attempt.  In
    particular, after a failed load the Run button stays disabled
    whenever Python is selected. *)
Theorem settled_runtime_is_final (ts : list Turn) (s s' : Session) :
  boot s = Settled ->
  turns ts s = Some s' ->
  boot s' = Settled
  /\ pyodide (state s') = pyodide (state s)
  /\ isLoading (state s') = isLoading (state s)
  /\ (pyodide (state s) = None -> language (state s') = python ->
      run_disabled (state s') = true).
Proof.
  revert s. induction ts as [|t ts IH]; intros s Hb Hturns; simpl in Hturns.
  - injection Hturns as <-. split; [exact Hb|]. split; [done|]. split; [done|].
    intros Hp Hl. unfold run_disabled, is_python, has_pyodide. rewrite Hl, Hp.
    simpl. apply orb_true_r.
  - destruct (turn t s) as [s1|] eqn:Hturn; [|discriminate].
    destruct (settled_turn s s1 t Hb Hturn) as (Hb1 & Hp1 & Hl1).
    destruct (IH s1 Hb1 Hturns) as (H1 & H2 & H3 & H4).
    rewrite <- Hp1, <- Hl1. split; [exact H1|]. split; [exact H2|].
    split; [exact H3|]. intros Hp. apply H4. congruence.
Qed.

(** X20.  The settling turn of [initPyodide] clears the loading flag
    whether the load succeeded or failed, and leaves source text,
    language, output and logging sink alone.  On success it stores the
    handle; on failure the handle stays as it was and the failure is
    reported through [console.error], which reaches the browser's console
    also while [console.log] is captured. *)
Theorem load_settlement (s s' : Session) (loaded : Completion PyodideHandle) :
  boot s = AwaitingLoad ->
  turn (LoadSettled loaded) s = Some s' ->
  boot s' = Settled
  /\ isLoading (state s') = false
  /\ code (state s') = code (state s)
  /\ language (state s') = language (state s)
  /\ output (state s') = output (state s)
  /\ console_log (console s') = console_log (console s)
  /\ match loaded with
     | Returns py =>
         pyodide (state s') = Some py
         /\ devtools (console s') = devtools (console s)
     | Throws e =>
         pyodide (state s') = pyodide (state s)
         /\ devtools (console s')
            = (devtools (console s) ++ [[VStr "Failed to load Pyodide:"; e]])%list
     | Diverges => False
     end.
Proof.
  intros Hb Hturn. simpl in Hturn. rewrite Hb in Hturn.
  destruct loaded as [py|e|]; [| |discriminate];
    injection Hturn as <-; done.
Qed.

End FurtherProperties.

(** ** The further properties at concrete sessions *)

Lemma format_line_app_witness :
  [VStr "a"] <> [] /\ [num 1; VNull] <> []
  /\ format_line ([VStr "a"] ++ [num 1; VNull])
     = format_line [VStr "a"] +:+ " " +:+ format_line [num 1; VNull].
Proof.
  assert (H1 : [VStr "a"] <> []) by discriminate.
  assert (H2 : [num 1; VNull] <> []) by discriminate.
  split; [exact H1|]. split; [exact H2|].
  exact (format_line_app [VStr "a"] [num 1; VNull] H1 H2).
Defined.

Lemma run_button_style_and_guard_witness :
  let st := mkAppState "" javascript false "" None true in
  language st = javascript /\ isLoading st = true
  /\ run_button_class st = "bg-gray-400 cursor-not-allowed"
  /\ run_disabled st = false.
Proof.
  intros st. split; [reflexivity|]. split; [reflexivity|].
  exact (proj2 (proj1 (proj2 (run_button_style_and_guard st))) (conj eq_refl eq_refl)).
Defined.


Lemma run_writes_only_its_own_array_witness :
  let s := snd (setCode scenario1_source
                  (after_run (R := Reference.runtime)
                     (session_with javascript scenario1_with_return None))) in
  language (state s) = javascript
  /\ heap (console s) = [["hi"]]
  /\ heap (console (after_run (R := Reference.runtime) s)) !! 1 = Some ["hi"]
  /\ heap (console (after_run (R := Reference.runtime) s)) !! 0 = Some ["hi"]
  /\ length (heap (console (after_run (R := Reference.runtime) s))) = 2.
Proof.
  intros s. split; [reflexivity|]. split; [reflexivity|].
  destruct (run_writes_only_its_own_array (R := Reference.runtime) s eq_refl)
    as (Hown & Hlen & Hother).
  split; [exact Hown|]. split; [|exact Hlen].
  exact (Hother 0 (Nat.lt_0_succ 0)).
Defined.



Lemma failed_native_run_loses_console_witness :
  let s := session_with javascript scenario2_source None in
  exists s',
    language (state s) = javascript
    /\ js_end (Reference.run_js (code (state s))) = Throws (VError "Error" (VStr "bad"))
    /\ turns (R := Reference.runtime) [Edit scenario1_with_return; ClickRun]
         (after_run (R := Reference.runtime) s) = Some s'
    /\ output (state s') = "hi" +:+ nl +:+ "=> 42"
    /\ console_log (console s') <> NativeLog.
Proof.
  intros s. eexists. split; [reflexivity|]. split; [reflexivity|].
  split; [vm_compute; reflexivity|]. split; [reflexivity|].
  apply (failed_native_run_loses_console (R := Reference.runtime) s _
           (VError "Error" (VStr "bad")) [Edit scenario1_with_return; ClickRun]
           eq_refl eq_refl).
  vm_compute. reflexivity.
Defined.


Lemma silent_run_shows_placeholder_witness :
  let s := session_with javascript ("console.log(" +:+ Reference.quoted "" +:+ ")")
             None in
  language (state s) = javascript
  /\ js_end (Reference.run_js (code (state s))) = Returns VUndefined
  /\ js_logs (Reference.run_js (code (state s))) = [[VStr ""]]
  /\ output_panel (state s) = "previous output"
  /\ output_panel (state (after_run (R := Reference.runtime) s))
     = "Run your code to see the output here...".
Proof.
  intros s. split; [reflexivity|]. split; [reflexivity|]. split; [reflexivity|].
  split; [reflexivity|].
  exact (proj1 (silent_run_shows_placeholder (R := Reference.runtime) s
                  eq_refl eq_refl eq_refl)).
Defined.


Lemma enabled_click_executes_witness :
  let s := session_with javascript scenario1_source None in
  exists s',
    click_run (R := Reference.runtime) s = Some s'
    /\ s' = after_run (R := Reference.runtime) s
    /\ run_outcome (R := Reference.runtime) s = Returns tt.
Proof.
  intros s. eexists. split; [vm_compute; reflexivity|].
  match goal with
  | |- ?s' = _ /\ _ =>
      assert (Hclick : click_run (R := Reference.runtime) s = Some s')
        by (vm_compute; reflexivity);
      destruct (enabled_click_executes (R := Reference.runtime) s s' Hclick)
        as (Hs & Hret & _)
  end.
  split; [exact Hs | exact Hret].
Defined.

Lemma settled_runtime_is_final_witness :
  let s := session_with python scenario3_source None in
  exists s',
    boot s = Settled
    /\ turns (R := Reference.runtime)
         [ClickRun; ClickLanguage javascript; ToggleTheme; ClickLanguage python] s
       = Some s'
    /\ pyodide (state s') = None
    /\ run_disabled (state s') = true.
Proof.
  intros s. eexists. split; [reflexivity|]. split; [vm_compute; reflexivity|].
  match goal with
  | |- pyodide (state ?s') = _ /\ _ =>
      assert (Hturns : turns (R := Reference.runtime)
                [ClickRun; ClickLanguage javascript; ToggleTheme;
                 ClickLanguage python] s = Some s')
        by (vm_compute; reflexivity);
      destruct (settled_runtime_is_final (R := Reference.runtime) _ s s'
                  eq_refl Hturns) as (_ & Hp & _ & Hdisabled)
  end.
  split; [exact Hp|]. exact (Hdisabled eq_refl eq_refl).
Defined.

Lemma load_settlement_witness :
  exists s s',
    turns (R := Reference.runtime) [Mount] initial_session = Some s
    /\ boot s = AwaitingLoad
    /\ turn (R := Reference.runtime)
         (LoadSettled (Throws (VError "Error" (VStr "network")))) s = Some s'
    /\ isLoading (state s) = true
    /\ isLoading (state s') = false
    /\ devtools (console s')
       = [[VStr "Failed to load Pyodide:"; VError "Error" (VStr "network")]].
Proof.
  eexists. eexists. split; [vm_compute; reflexivity|]. split; [reflexivity|].
  split; [vm_compute; reflexivity|]. split; [reflexivity|].
  match goal with
  | |- isLoading (state ?s') = _ /\ devtools (console ?s'') = _ =>
      destruct (load_settlement (R := Reference.runtime)
                  (mkSession (mkAppState "// Start coding here..." javascript false
                                "" None true)
                     (mkConsole NativeLog [] []) (mkPyVM None StdStream "") AwaitingLoad
                     [EvUpdate (SetIsLoading true)])
                  s' (Throws (VError "Error" (VStr "network"))) eq_refl eq_refl)
        as (_ & Hflag & _ & _ & _ & _ & _ & Hdev)
  end.
  split; [exact Hflag | exact Hdev].
Defined.

Lemma run_changes_only_output_witness :
  let s := session_with javascript scenario2_source None in
  EvUpdate (SetOutput "Error: bad")
    ∈ new_events s (after_run (R := Reference.runtime) s)
  /\ exists text, SetOutput "Error: bad" = SetOutput text.
Proof.
  intros s.
  assert (Hin : EvUpdate (SetOutput "Error: bad")
                  ∈ new_events s (after_run (R := Reference.runtime) s)).
  { vm_compute. do 3 (apply elem_of_cons; right). apply elem_of_cons. by left. }
  split; [exact Hin|].
  exact (proj2 (proj2 (run_changes_only_output (R := Reference.runtime) s)) _ Hin).
Defined.
